(** * Fare estimation and pricing-state reconciliation of the cab-booking site

    Shallow embedding of
    - [src/components/MumbaiLocalBooking.tsx]: the validators, the haversine
      fallback, [calculateRouteDetails], [getFare], [saveBookingToDatabase]
      and [handleSubmit];
    - [src/contexts/AdminContext.tsx]: the [AdminProvider] operations on the
      in-memory [PricingConfig].

    Conventions.
    - JavaScript numbers have two readings.  Where a statement depends on
      how a product or a quotient is rounded, or on NaN and [undefined],
      a Number is an IEEE 754 binary64 value (modules [Js64], [Booking64]
      and [Geo64]; [Math.sin], [Math.cos] and [Math.atan2], which the
      language leaves to the engine, come from a [Runtime]).  Where only
      the control flow or the geometry matters, numbers are idealised:
      exact rationals [Q] in [Booking], real numbers [R] in [Geo];
      [Math_round_Q2R] relates the two idealised readings of [Math.round].
    - JavaScript strings are [string]s of 8-bit code units.
    - An awaited remote call is an argument of the operation: the response
      the remote side gave.  The request itself is recorded in the world. *)

From Stdlib Require Import Bool List String Ascii ZArith QArith Qround Lia.
From Stdlib Require Import Reals Qreals Zfloor Lra.
From Stdlib Require Import SpecFloat DecimalString.
Import ListNotations.
Open Scope string_scope.
Open Scope list_scope.

(** ** Data model (interfaces of AdminContext.tsx) *)

Record City := mkCity {
  city_id : string;
  city_name : string
}.

Record Route := mkRoute {
  route_id : string;
  from_city : string;
  to_city : string;
  price_4_seater : Q;
  price_6_seater : Q
}.

Record LocalFare := mkLocalFare {
  fare_id : string;
  service_area : string;
  normal_4_seater_rate_per_km : Q;
  normal_6_seater_rate_per_km : Q;
  airport_4_seater_rate_per_km : Q;
  airport_6_seater_rate_per_km : Q
}.

Record PricingConfig := mkPricing {
  mumbaiLocal : option LocalFare;
  cities : list City;
  routes : list Route
}.

(** ** JavaScript primitives used by the code *)

(** [Math.round]: nearest integer, ties towards plus infinity. *)
Definition Math_round (x : Q) : Z := Qfloor (x + (1 # 2)).

(** [x === 0] on numbers. *)
Definition is_zero (x : Q) : bool := Qeq_bool x 0.

(** Truthiness of a string: every string but the empty one. *)
Definition truthy (s : string) : bool :=
  match s with
  | EmptyString => false
  | String _ _ => true
  end.

(** [a || b] on strings. *)
Definition or_default (a b : string) : string := if truthy a then a else b.

(** What a [catch] clause receives: the error object of the remote store
    (with its [code]) or any other thrown value (no [code]). *)
Record JsError := mkError {
  err_code : option string;
  err_message : string
}.

(** [error.code === c]. *)
Definition code_is (e : JsError) (c : string) : bool :=
  match err_code e with
  | Some c' => c' =? c
  | None => false
  end.

(** [new Error(`API error: ${response.status}`)] *)
Definition api_error (status : Z) : JsError :=
  {| err_code := None;
     err_message :=
       String.append "API error: " (NilZero.string_of_int (Z.to_int status)) |}.

(** The settled value of an awaited remote call, [{ data, error }]: the
    client library fills exactly one of the two; a rejected promise reaches
    the same [catch] and is a [Failure] too. *)
Inductive Response (A : Type) : Type :=
| Success (data : A)
| Failure (error : JsError).
Arguments Success {A} data.
Arguments Failure {A} error.

(** ** Control flow: state, [throw], [try]/[catch]/[finally] *)

Module Control.

Inductive Completion (A : Type) : Type :=
| Returned (a : A)
| Thrown (e : JsError).
Arguments Returned {A} a.
Arguments Thrown {A} e.

Section Monad.
Variable W : Type.

Definition M (A : Type) : Type := W -> Completion A * W.

Definition ret {A} (a : A) : M A := fun w => (Returned a, w).

Definition throw {A} (e : JsError) : M A := fun w => (Thrown e, w).

Definition bind {A B} (m : M A) (k : A -> M B) : M B :=
  fun w =>
    match m w with
    | (Returned a, w') => k a w'
    | (Thrown e, w') => (Thrown e, w')
    end.

Definition modify (f : W -> W) : M unit := fun w => (Returned tt, f w).

Definition try_catch {A} (body : M A) (handler : JsError -> M A) : M A :=
  fun w =>
    match body w with
    | (Returned a, w') => (Returned a, w')
    | (Thrown e, w') => handler e w'
    end.

(** [try { body } finally { cleanup }] with a [cleanup] that neither
    returns nor throws on its own account. *)
Definition try_finally {A} (body : M A) (cleanup : W -> W) : M A :=
  fun w => let (c, w') := body w in (c, cleanup w').

(** [const { data, error } = await call; if (error) throw error;] *)
Definition settle {A} (r : Response A) : M A :=
  match r with
  | Success data => ret data
  | Failure error => throw error
  end.
End Monad.

Arguments ret {W A} a.
Arguments throw {W A} e.
Arguments bind {W A B} m k.
Arguments modify {W} f.
Arguments try_catch {W A} body handler.
Arguments try_finally {W A} body cleanup.
Arguments settle {W A} r.

Definition result {W A} (x : Completion A * W) : Completion A := fst x.
Definition world {W A} (x : Completion A * W) : W := snd x.

End Control.

Declare Scope js_scope.
Delimit Scope js_scope with js.
Notation "x <- m ;; k" := (Control.bind m (fun x => k))
  (at level 61, m at next level, right associativity) : js_scope.
Notation "m ;; k" := (Control.bind m (fun _ => k))
  (at level 61, right associativity) : js_scope.

(** ** Regular expressions and [RegExp.prototype.test]

    The two patterns of the source are anchored at both ends and carry no
    flag, so [test] is a match of the whole string. *)

Module Regex.

Inductive re : Type :=
| Void
| Eps
| Class (p : ascii -> bool)
| Seq (r1 r2 : re)
| Alt (r1 r2 : re)
| Star (r : re).

(** [r+] *)
Definition Plus (r : re) : re := Seq r (Star r).

(** [r{n}] *)
Fixpoint Repeat (n : nat) (r : re) : re :=
  match n with
  | O => Eps
  | S n' => Seq r (Repeat n' r)
  end.

Fixpoint nullable (r : re) : bool :=
  match r with
  | Void => false
  | Eps => true
  | Class _ => false
  | Seq r1 r2 => nullable r1 && nullable r2
  | Alt r1 r2 => nullable r1 || nullable r2
  | Star _ => true
  end.

Fixpoint deriv (c : ascii) (r : re) : re :=
  match r with
  | Void => Void
  | Eps => Void
  | Class p => if p c then Eps else Void
  | Seq r1 r2 =>
      if nullable r1
      then Alt (Seq (deriv c r1) r2) (deriv c r2)
      else Seq (deriv c r1) r2
  | Alt r1 r2 => Alt (deriv c r1) (deriv c r2)
  | Star r1 => Seq (deriv c r1) (Star r1)
  end.

Fixpoint matches (r : re) (s : list ascii) : bool :=
  match s with
  | [] => nullable r
  | c :: s' => matches (deriv c r) s'
  end.

Definition test (r : re) (s : string) : bool :=
  matches r (list_ascii_of_string s).

(** The language of a pattern, for the proofs. *)
Inductive Lang : re -> list ascii -> Prop :=
| LEps : Lang Eps []
| LClass p c : p c = true -> Lang (Class p) [c]
| LSeq r1 r2 s1 s2 : Lang r1 s1 -> Lang r2 s2 -> Lang (Seq r1 r2) (s1 ++ s2)
| LAltL r1 r2 s : Lang r1 s -> Lang (Alt r1 r2) s
| LAltR r1 r2 s : Lang r2 s -> Lang (Alt r1 r2) s
| LStarNil r : Lang (Star r) []
| LStarApp r s1 s2 : Lang r s1 -> Lang (Star r) s2 -> Lang (Star r) (s1 ++ s2).

(** Character classes of the source patterns. *)

(** [\d] *)
Definition digit (c : ascii) : bool :=
  let n := nat_of_ascii c in (48 <=? n)%nat && (n <=? 57)%nat.

(** [\s], on 8-bit code units: tab, line feed, vertical tab, form feed,
    carriage return, space and no-break space. *)
Definition space (c : ascii) : bool :=
  let n := nat_of_ascii c in
  ((9 <=? n)%nat && (n <=? 13)%nat) || (n =? 32)%nat || (n =? 160)%nat.

Definition is_char (a c : ascii) : bool := Ascii.eqb a c.

(** [[^\s@]] *)
Definition not_space_at (c : ascii) : bool :=
  negb (space c) && negb (is_char "@" c).

End Regex.

(** ** The booking form (MumbaiLocalBooking.tsx) *)

Module Booking.
Import Control.
Local Open Scope js_scope.

(** [isValidPhoneNumber], lines 76-79: [/^\d{10}$/]. *)
Definition phoneRegex : Regex.re := Regex.Repeat 10 (Regex.Class Regex.digit).

Definition isValidPhoneNumber (phone : string) : bool :=
  Regex.test phoneRegex phone.

(** [isValidEmail], lines 82-85: [/^[^\s@]+@[^\s@]+\.[^\s@]+$/]. *)
Definition emailRegex : Regex.re :=
  Regex.Seq (Regex.Plus (Regex.Class Regex.not_space_at))
    (Regex.Seq (Regex.Class (Regex.is_char "@"))
       (Regex.Seq (Regex.Plus (Regex.Class Regex.not_space_at))
          (Regex.Seq (Regex.Class (Regex.is_char "."))
             (Regex.Plus (Regex.Class Regex.not_space_at))))).

Definition isValidEmail (email : string) : bool :=
  Regex.test emailRegex email.

Record Booking := mkBooking {
  customerName : string;
  customerPhone : string;
  customerEmail : string;
  pickup : string;
  drop : string;
  carType : string;
  tripType : string;
  date : string;
  time : string
}.

(** The [useState] cells of the component that the handlers read. *)
Record FormState := mkForm {
  booking : Booking;
  distance : Q;
  duration : Q;
  mumbaiLocalRates : option LocalFare
}.

Record FareDetails := mkFare {
  ratePerKm : Q;
  total : Z;
  isMinimumFare : bool
}.

(** [getFare], lines 157-185. *)
Definition getFare (st : FormState) : option FareDetails :=
  if is_zero (distance st) then None else
  match mumbaiLocalRates st with
  | None => None
  | Some rates =>
      let ratePerKm :=
        if tripType (booking st) =? "airport" then
          if carType (booking st) =? "4-seater"
          then airport_4_seater_rate_per_km rates
          else airport_6_seater_rate_per_km rates
        else
          if carType (booking st) =? "4-seater"
          then normal_4_seater_rate_per_km rates
          else normal_6_seater_rate_per_km rates in
      let totalFare := Math_round (distance st * ratePerKm) in
      let isMinimumFare := (totalFare <? 100)%Z in
      Some {| ratePerKm := ratePerKm;
              total := if isMinimumFare then 100%Z else totalFare;
              isMinimumFare := isMinimumFare |}
  end.

(** [getFare()?.total || 0] *)
Definition estimated_total (st : FormState) : Z :=
  match getFare st with
  | Some fare => total fare
  | None => 0%Z
  end.

(** The row handed to [supabase.from('bookings').insert]. *)
Record BookingRow := mkRow {
  customer_id : string;
  customer_name : string;
  customer_phone : string;
  customer_email : option string;
  service_type : string;
  from_location : string;
  to_location : string;
  car_type : string;
  travel_date : string;
  travel_time : string;
  estimated_price : Z;
  status : string
}.

(** The fields interpolated into the outbound message, in the order of the
    template; the text around them is fixed. *)
Record Message := mkMessage {
  msg_customer : string;
  msg_phone : string;
  msg_email : string;
  msg_pickup : string;
  msg_drop : string;
  msg_distance : Q;
  msg_duration : Q;
  msg_carType : string;
  msg_date : string;
  msg_time : string;
  msg_serviceType : string;
  msg_estimatedPrice : Z
}.

(** What the handlers do to the outside, in order. *)
Inductive Event : Type :=
| ToastError (text : string)
| ToastSuccess (text : string)
| ConsoleError (label : string) (error : JsError)
| InsertBooking (row : BookingRow)
| WindowOpen (number : string) (message : Message).

Definition emit (e : Event) : M (list Event) unit :=
  modify (fun trace => trace ++ [e]).

Definition bookingRow (st : FormState) : BookingRow :=
  let b := booking st in
  {| customer_id := "guest";
     customer_name := customerName b;
     customer_phone := customerPhone b;
     customer_email :=
       if truthy (customerEmail b) then Some (customerEmail b) else None;
     service_type := "mumbai-local";
     from_location := pickup b;
     to_location := drop b;
     car_type := carType b;
     travel_date := date b;
     travel_time := time b;
     estimated_price := estimated_total st;
     status := "pending" |}.

(** [saveBookingToDatabase], lines 207-230, from the point where the insert
    settles: the part of the [async] function after its [await]. *)
Definition saveBookingToDatabase_settled (saved : Response unit)
  : M (list Event) bool :=
  try_catch
    (settle saved ;; ret true)
    (fun error => emit (ConsoleError "Error saving booking:" error) ;; ret false).

Definition buildMessage (st : FormState) : Message :=
  let b := booking st in
  let fareDetails := getFare st in
  let serviceType :=
    if tripType b =? "airport" then "Airport Transfer" else "Local Ride" in
  {| msg_customer := customerName b;
     msg_phone := customerPhone b;
     msg_email := or_default (customerEmail b) "Not provided";
     msg_pickup := pickup b;
     msg_drop := drop b;
     msg_distance := distance st;
     msg_duration := duration st;
     msg_carType := carType b;
     msg_date := date b;
     msg_time := time b;
     msg_serviceType := serviceType;
     msg_estimatedPrice :=
       match fareDetails with Some fare => total fare | None => 0%Z end |}.

(** [handleSubmit], lines 232-286.  [saveBookingToDatabase()] runs up to its
    [await] (the insert is issued), the handler goes on to its end without
    waiting, and the continuation of the save and the [then] callback run
    once the insert has settled with [saved]. *)
Definition handleSubmit (st : FormState) (saved : Response unit)
  : M (list Event) unit :=
  let b := booking st in
  if negb (truthy (customerName b)) || negb (truthy (customerPhone b))
     || negb (truthy (pickup b)) || negb (truthy (drop b))
     || negb (truthy (date b)) || negb (truthy (time b))
  then emit (ToastError "Please fill all required fields")
  else if negb (isValidPhoneNumber (customerPhone b))
  then emit (ToastError "Please enter a valid 10-digit phone number.")
  else if truthy (customerEmail b) && negb (isValidEmail (customerEmail b))
  then emit (ToastError "Please enter a valid email address.")
  else if is_zero (distance st)
  then emit (ToastError "Unable to calculate distance. Please check your locations.")
  else
    emit (InsertBooking (bookingRow st)) ;;
    emit (WindowOpen "919860146819" (buildMessage st)) ;;
    emit (ToastSuccess "Redirecting to WhatsApp for booking confirmation") ;;
    ok <- saveBookingToDatabase_settled saved ;;
    if negb ok
    then emit (ToastError "Failed to save booking. Please try again.")
    else ret tt.

(** *** The rate matrix as the specification words it *)

Inductive TripType := Normal | Airport.
Inductive CarType := FourSeater | SixSeater.

Definition tripType_value (t : TripType) : string :=
  match t with Normal => "normal" | Airport => "airport" end.

Definition carType_value (c : CarType) : string :=
  match c with FourSeater => "4-seater" | SixSeater => "6-seater" end.

(** The 2x2 lookup of the specification, to be compared with [getFare]. *)
Definition spec_selectedRate (rates : LocalFare) (t : TripType) (c : CarType) : Q :=
  match t, c with
  | Normal, FourSeater => normal_4_seater_rate_per_km rates
  | Normal, SixSeater => normal_6_seater_rate_per_km rates
  | Airport, FourSeater => airport_4_seater_rate_per_km rates
  | Airport, SixSeater => airport_6_seater_rate_per_km rates
  end.

(** The rate [getFare] reads, by the two string comparisons of the code. *)
Definition rate_read (rates : LocalFare) (trip car : string) : Q :=
  if trip =? "airport" then
    if car =? "4-seater"
    then airport_4_seater_rate_per_km rates
    else airport_6_seater_rate_per_km rates
  else
    if car =? "4-seater"
    then normal_4_seater_rate_per_km rates
    else normal_6_seater_rate_per_km rates.

(** The fare for a known rate: what every branch of [getFare] returns. *)
Definition fare_of (d rate : Q) : FareDetails :=
  {| ratePerKm := rate;
     total := Z.max 100 (Math_round (d * rate));
     isMinimumFare := (Math_round (d * rate) <? 100)%Z |}.

(** The rates of the end-to-end scenario. *)
Definition scenario_rates : LocalFare :=
  {| fare_id := "1"; service_area := "Mumbai Local";
     normal_4_seater_rate_per_km := 15;
     normal_6_seater_rate_per_km := 18;
     airport_4_seater_rate_per_km := 18;
     airport_6_seater_rate_per_km := 22 |}.

Definition scenario_booking (trip car : string) : Booking :=
  {| customerName := "Asha"; customerPhone := "9876543210";
     customerEmail := ""; pickup := "Dadar"; drop := "Bandra";
     carType := car; tripType := trip;
     date := "2025-01-01"; time := "10:00" |}.

Definition scenario_form (trip car : string) (km : Q) : FormState :=
  {| booking := scenario_booking trip car;
     distance := km; duration := 0;
     mumbaiLocalRates := Some scenario_rates |}.

(** *** Validation outcomes as the specification words them *)

Definition missing_required (b : Booking) : Prop :=
  customerName b = "" \/ customerPhone b = "" \/ pickup b = "" \/
  drop b = "" \/ date b = "" \/ time b = "".

Definition ten_digits (s : string) : Prop :=
  String.length s = 10%nat /\
  Forall (fun c => Regex.digit c = true) (list_ascii_of_string s).

Definition malformed_email (s : string) : Prop :=
  s <> "" /\ isValidEmail s = false.

(** The four notifications of a rejected submission. *)
Definition validation_texts : list string :=
  [ "Please fill all required fields";
    "Please enter a valid 10-digit phone number.";
    "Please enter a valid email address.";
    "Unable to calculate distance. Please check your locations." ].

(** What a submission that passed every check does before the save has
    settled. *)
Definition handoff (st : FormState) : list Event :=
  [ InsertBooking (bookingRow st);
    WindowOpen "919860146819" (buildMessage st);
    ToastSuccess "Redirecting to WhatsApp for booking confirmation" ].

(** What follows once the save has settled. *)
Definition after_save (saved : Response unit) : list Event :=
  match saved with
  | Success _ => []
  | Failure error =>
      [ ConsoleError "Error saving booking:" error;
        ToastError "Failed to save booking. Please try again." ]
  end.

Definition valid_form : FormState :=
  {| booking := {| customerName := "Asha"; customerPhone := "9876543210";
                   customerEmail := "asha@example.com";
                   pickup := "Dadar"; drop := "Bandra";
                   carType := "4-seater"; tripType := "airport";
                   date := "2025-01-01"; time := "10:00" |};
     distance := 40; duration := 55;
     mumbaiLocalRates := Some scenario_rates |}.

Definition with_booking (b : Booking) (st : FormState) : FormState :=
  {| booking := b; distance := distance st; duration := duration st;
     mumbaiLocalRates := mumbaiLocalRates st |}.

Definition with_phone (phone : string) (b : Booking) : Booking :=
  {| customerName := customerName b; customerPhone := phone;
     customerEmail := customerEmail b; pickup := pickup b; drop := drop b;
     carType := carType b; tripType := tripType b;
     date := date b; time := time b |}.

Definition save_failed : JsError :=
  {| err_code := Some "08006"; err_message := "connection failure" |}.

End Booking.

(** ** Distance estimation (MumbaiLocalBooking.tsx, lines 88-155) *)

Module Geo.
Import Control.
Local Open Scope R_scope.
Local Open Scope js_scope.

Record Coordinates := mkCoordinates {
  lat : R;
  lng : R
}.

(** [Math.round] on real numbers. *)
Definition Math_roundR (x : R) : Z := Zfloor (x + / 2).

(** [Math.atan2(y, x)]: the angle of the point (x, y), in (-PI, PI]. *)
Definition Math_atan2 (y x : R) : R :=
  if Rlt_dec 0 x then atan (y / x)
  else if Rlt_dec x 0 then
    if Rle_dec 0 y then atan (y / x) + PI else atan (y / x) - PI
  else if Rlt_dec 0 y then PI / 2
  else if Rlt_dec y 0 then - (PI / 2)
  else 0.

(** [calculateStraightLineDistance], lines 88-100. *)
Definition calculateStraightLineDistance (pickup drop : Coordinates) : R :=
  let R := 6371 in
  let dLat := (lat drop - lat pickup) * PI / 180 in
  let dLng := (lng drop - lng pickup) * PI / 180 in
  let a :=
    sin (dLat / 2) * sin (dLat / 2) +
    cos (lat pickup * PI / 180) *
    cos (lat drop * PI / 180) *
    sin (dLng / 2) *
    sin (dLng / 2) in
  let c := 2 * Math_atan2 (sqrt a) (sqrt (1 - a)) in
  IZR (Math_roundR (R * c * 100)) / 100.

(** The body of a successful answer of the distance service. *)
Record DistanceResult := mkDistanceResult {
  result_distance : R;
  result_duration : R
}.

(** How [fetch] settled: the promise rejected, or a response arrived with
    its [ok] flag, its status and the outcome of [response.json()]. *)
Inductive FetchOutcome : Type :=
| FetchRejected (error : JsError)
| FetchResponse (ok : bool) (status : Z) (json : Response DistanceResult).

(** The cells written by [calculateRouteDetails], and the console. *)
Record RouteState := mkRouteState {
  distance : R;
  duration : R;
  isCalculating : bool;
  console : list (string * JsError)
}.

Definition setDistance (d : R) : M RouteState unit :=
  modify (fun s => {| distance := d; duration := duration s;
                      isCalculating := isCalculating s; console := console s |}).

Definition setDuration (d : R) : M RouteState unit :=
  modify (fun s => {| distance := distance s; duration := d;
                      isCalculating := isCalculating s; console := console s |}).

Definition setIsCalculating (b : bool) (s : RouteState) : RouteState :=
  {| distance := distance s; duration := duration s;
     isCalculating := b; console := console s |}.

Definition console_error (label : string) (e : JsError) : M RouteState unit :=
  modify (fun s => {| distance := distance s; duration := duration s;
                      isCalculating := isCalculating s;
                      console := console s ++ [(label, e)] |}).

(** [await fetch(...)] *)
Definition await_fetch (o : FetchOutcome)
  : M RouteState (bool * Z * Response DistanceResult) :=
  match o with
  | FetchRejected error => throw error
  | FetchResponse ok status json => ret (ok, status, json)
  end.

(** [calculateRouteDetails], lines 133-155. *)
Definition calculateRouteDetails (pickup drop : Coordinates) (o : FetchOutcome)
  : M RouteState unit :=
  modify (setIsCalculating true) ;;
  try_finally
    (try_catch
       (response <- await_fetch o ;;
        let '(ok, status, json) := response in
        if ok : bool then
          result <- settle json ;;
          setDistance (result_distance result) ;;
          setDuration (result_duration result)
        else throw (api_error status))
       (fun error =>
          console_error "Error calculating route with Google Distance Matrix:" error ;;
          let straightDistance := calculateStraightLineDistance pickup drop in
          setDistance straightDistance ;;
          setDuration (IZR (Math_roundR (straightDistance * 3)))))
    (setIsCalculating false).

(** The service did not deliver a distance: the call failed, the response
    was not a success, or its body could not be read. *)
Definition service_failed (o : FetchOutcome) : Prop :=
  match o with
  | FetchRejected _ => True
  | FetchResponse ok _ json =>
      ok = false \/ match json with Failure _ => True | Success _ => False end
  end.

Definition idle : RouteState :=
  {| distance := 0; duration := 0; isCalculating := false; console := [] |}.

End Geo.

(** *** Statements compared with the code *)

Module GeoStatements.
Import Control Geo.
Local Open Scope R_scope.

(** The haversine term and the central angle of [calculateStraightLineDistance]. *)
Definition haversine_a (pickup drop : Coordinates) : R :=
  let dLat := (lat drop - lat pickup) * PI / 180 in
  let dLng := (lng drop - lng pickup) * PI / 180 in
  sin (dLat / 2) * sin (dLat / 2) +
  cos (lat pickup * PI / 180) * cos (lat drop * PI / 180) *
  sin (dLng / 2) * sin (dLng / 2).

Definition central_angle (pickup drop : Coordinates) : R :=
  2 * Math_atan2 (sqrt (haversine_a pickup drop))
                 (sqrt (1 - haversine_a pickup drop)).

(** Two points of the equator, 0.005 degrees apart (about 556 m). *)
Definition equator_origin : Coordinates := {| lat := 0; lng := 0 |}.
Definition equator_near : Coordinates := {| lat := 0; lng := 5 / 1000 |}.

Definition unreachable : FetchOutcome :=
  FetchRejected {| err_code := None; err_message := "Failed to fetch" |}.

End GeoStatements.

(** ** The pricing store (AdminContext.tsx) *)

Module Admin.
Import Control.
Local Open Scope js_scope.

(** The calls made on the remote tables. *)
Inductive Request : Type :=
| SelectCities
| SelectRoutes
| SelectLocalFare (service_area : string)
| InsertCity (name : string)
| DeleteCity (id : string)
| InsertRoute (from_city to_city : string) (price_4_seater price_6_seater : Q)
| UpdateRoutePrices (id : string) (price_4_seater price_6_seater : Q)
| DeleteRouteById (id : string).

Inductive Notice : Type :=
| ToastError (text : string)
| ToastSuccess (text : string)
| ConsoleError (label : string) (error : JsError).

(** The provider's [pricing] cell, the browser's local storage (the value
    under a key is the snapshot that was serialised there) and what went out
    to the remote store and to the user. *)
Record World := mkWorld {
  pricing : PricingConfig;
  localStorage : list (string * PricingConfig);
  requests : list Request;
  notices : list Notice
}.

Definition defaultPricing : PricingConfig :=
  {| mumbaiLocal := None; cities := []; routes := [] |}.

Definition initial : World :=
  {| pricing := defaultPricing; localStorage := []; requests := []; notices := [] |}.

(** [setPricing(prev => f(prev))] *)
Definition setPricing (f : PricingConfig -> PricingConfig) : M World unit :=
  modify (fun w => {| pricing := f (pricing w); localStorage := localStorage w;
                      requests := requests w; notices := notices w |}).

(** [localStorage.setItem(key, JSON.stringify(value))] *)
Definition setItem (key : string) (value : PricingConfig) : M World unit :=
  modify (fun w =>
    {| pricing := pricing w;
       localStorage :=
         (key, value) :: filter (fun kv => negb (fst kv =? key)) (localStorage w);
       requests := requests w; notices := notices w |}).

Definition notify (n : Notice) : M World unit :=
  modify (fun w => {| pricing := pricing w; localStorage := localStorage w;
                      requests := requests w; notices := notices w ++ [n] |}).

(** [const { data, error } = await supabase.from(...)...; if (error) throw error;] *)
Definition await {A} (req : Request) (r : Response A) : M World A :=
  modify (fun w => {| pricing := pricing w; localStorage := localStorage w;
                      requests := requests w ++ [req]; notices := notices w |}) ;;
  settle r.

(** [data || []] *)
Definition or_empty {A} (data : option (list A)) : list A :=
  match data with
  | Some l => l
  | None => []
  end.

(** [fetchCitiesAndRoutes], lines 86-109. *)
Definition fetchCitiesAndRoutes
    (citiesResponse : Response (option (list City)))
    (routesResponse : Response (option (list Route))) : M World unit :=
  try_catch
    (cities' <- await SelectCities citiesResponse ;;
     routes' <- await SelectRoutes routesResponse ;;
     setPricing (fun prev =>
       {| mumbaiLocal := mumbaiLocal prev;
          cities := or_empty cities';
          routes := or_empty routes' |}))
    (fun error =>
       notify (ConsoleError "Error fetching cities and routes:" error) ;;
       notify (ToastError "Failed to load cities and routes")).

(** [fetchLocalFares], lines 111-129. *)
Definition fetchLocalFares (fareResponse : Response (option LocalFare))
  : M World unit :=
  try_catch
    (localFares <- await (SelectLocalFare "Mumbai Local") fareResponse ;;
     setPricing (fun prev =>
       {| mumbaiLocal := localFares;
          cities := cities prev;
          routes := routes prev |}))
    (fun error =>
       notify (ConsoleError "Error fetching local fares:" error) ;;
       notify (ToastError "Failed to load local fares")).

(** The mount effect, lines 75-84: both fetches are started; the three
    selects settle with the given responses.  The fetches are composed one
    after the other; in the browser the local-fare select leaves before the
    routes select, and the two failure notices may come in either order.
    What is stated about [load] does not depend on that order. *)
Definition load
    (citiesResponse : Response (option (list City)))
    (routesResponse : Response (option (list Route)))
    (fareResponse : Response (option LocalFare)) : M World unit :=
  fetchCitiesAndRoutes citiesResponse routesResponse ;;
  fetchLocalFares fareResponse.

(** [updatePricing], lines 151-154. *)
Definition updatePricing (newPricing : PricingConfig) : M World unit :=
  setPricing (fun _ => newPricing) ;;
  setItem "Saffari_mumbai_pricing" newPricing.

(** [addCity], lines 158-184. *)
Definition addCity (cityName : string) (r : Response City) : M World bool :=
  try_catch
    (data <- await (InsertCity cityName) r ;;
     setPricing (fun prev =>
       {| mumbaiLocal := mumbaiLocal prev;
          cities := cities prev ++ [data];
          routes := routes prev |}) ;;
     notify (ToastSuccess "City added successfully") ;;
     ret true)
    (fun error =>
       notify (ConsoleError "Error adding city:" error) ;;
       (if code_is error "23505"
        then notify (ToastError "City already exists")
        else notify (ToastError "Failed to add city")) ;;
       ret false).

(** [removeCity], lines 186-207. *)
Definition removeCity (cityId : string) (r : Response unit) : M World bool :=
  try_catch
    (await (DeleteCity cityId) r ;;
     setPricing (fun prev =>
       {| mumbaiLocal := mumbaiLocal prev;
          cities := filter (fun c => negb (city_id c =? cityId)) (cities prev);
          routes := routes prev |}) ;;
     notify (ToastSuccess "City removed successfully") ;;
     ret true)
    (fun error =>
       notify (ConsoleError "Error removing city:" error) ;;
       notify (ToastError "Failed to remove city") ;;
       ret false).

(** [addRoute], lines 209-240. *)
Definition addRoute (fromCity toCity : string)
    (fourSeaterPrice sixSeaterPrice : Q) (r : Response Route) : M World bool :=
  try_catch
    (data <- await (InsertRoute fromCity toCity fourSeaterPrice sixSeaterPrice) r ;;
     setPricing (fun prev =>
       {| mumbaiLocal := mumbaiLocal prev;
          cities := cities prev;
          routes := routes prev ++ [data] |}) ;;
     notify (ToastSuccess "Route added successfully") ;;
     ret true)
    (fun error =>
       notify (ConsoleError "Error adding route:" error) ;;
       (if code_is error "23505"
        then notify (ToastError "Route already exists")
        else notify (ToastError "Failed to add route")) ;;
       ret false).

(** [updateRoute], lines 242-268. *)
Definition updateRoute (routeId : string)
    (fourSeaterPrice sixSeaterPrice : Q) (r : Response Route) : M World bool :=
  try_catch
    (data <- await (UpdateRoutePrices routeId fourSeaterPrice sixSeaterPrice) r ;;
     setPricing (fun prev =>
       {| mumbaiLocal := mumbaiLocal prev;
          cities := cities prev;
          routes := map (fun r => if route_id r =? routeId then data else r)
                        (routes prev) |}) ;;
     notify (ToastSuccess "Route updated successfully") ;;
     ret true)
    (fun error =>
       notify (ConsoleError "Error updating route:" error) ;;
       notify (ToastError "Failed to update route") ;;
       ret false).

(** [deleteRoute], lines 270-291. *)
Definition deleteRoute (routeId : string) (r : Response unit) : M World bool :=
  try_catch
    (await (DeleteRouteById routeId) r ;;
     setPricing (fun prev =>
       {| mumbaiLocal := mumbaiLocal prev;
          cities := cities prev;
          routes := filter (fun r => negb (route_id r =? routeId)) (routes prev) |}) ;;
     notify (ToastSuccess "Route deleted successfully") ;;
     ret true)
    (fun error =>
       notify (ConsoleError "Error deleting route:" error) ;;
       notify (ToastError "Failed to delete route") ;;
       ret false).

(** The five operations that change a remote table, each with the response
    of its remote call. *)
Inductive Mutation : Type :=
| AddCity (cityName : string) (r : Response City)
| RemoveCity (cityId : string) (r : Response unit)
| AddRoute (fromCity toCity : string) (fourSeaterPrice sixSeaterPrice : Q)
    (r : Response Route)
| UpdateRoute (routeId : string) (fourSeaterPrice sixSeaterPrice : Q)
    (r : Response Route)
| DeleteRoute (routeId : string) (r : Response unit).

Definition perform (m : Mutation) : M World bool :=
  match m with
  | AddCity cityName r => addCity cityName r
  | RemoveCity cityId r => removeCity cityId r
  | AddRoute f t p4 p6 r => addRoute f t p4 p6 r
  | UpdateRoute routeId p4 p6 r => updateRoute routeId p4 p6 r
  | DeleteRoute routeId r => deleteRoute routeId r
  end.

Definition succeeded {A} (r : Response A) : bool :=
  match r with
  | Success _ => true
  | Failure _ => false
  end.

Definition remote_succeeded (m : Mutation) : bool :=
  match m with
  | AddCity _ r => succeeded r
  | RemoveCity _ r => succeeded r
  | AddRoute _ _ _ _ r => succeeded r
  | UpdateRoute _ _ _ r => succeeded r
  | DeleteRoute _ r => succeeded r
  end.

(** The request a mutation sends. *)
Definition request_of (m : Mutation) : Request :=
  match m with
  | AddCity cityName _ => InsertCity cityName
  | RemoveCity cityId _ => DeleteCity cityId
  | AddRoute f t p4 p6 _ => InsertRoute f t p4 p6
  | UpdateRoute routeId p4 p6 _ => UpdateRoutePrices routeId p4 p6
  | DeleteRoute routeId _ => DeleteRouteById routeId
  end.

(** The unique-constraint violation of the remote store. *)
Definition conflict : JsError :=
  {| err_code := Some "23505";
     err_message := "duplicate key value violates unique constraint" |}.

Definition network_down : JsError :=
  {| err_code := None; err_message := "Failed to fetch" |}.

(** Sample data for the closed examples. *)
Definition pune : City := {| city_id := "c1"; city_name := "Pune" |}.
Definition nashik : City := {| city_id := "c2"; city_name := "Nashik" |}.

Definition mumbai_pune : Route :=
  {| route_id := "r1"; from_city := "Mumbai"; to_city := "Pune";
     price_4_seater := 2500; price_6_seater := 3500 |}.

Definition mumbai_nashik : Route :=
  {| route_id := "r2"; from_city := "Mumbai"; to_city := "Nashik";
     price_4_seater := 3000; price_6_seater := 4200 |}.

Definition stocked : World :=
  {| pricing := {| mumbaiLocal := Some Booking.scenario_rates;
                   cities := [pune];
                   routes := [mumbai_pune; mumbai_nashik] |};
     localStorage := []; requests := []; notices := [] |}.

End Admin.

(** *** Statements compared with the code *)

Module AdminStatements.
Import Control Admin.

(** Independence of the three selects of [load], read literally: a select
    that succeeded always reaches its slice. *)
Definition load_slices_independent
    (citiesResponse : Response (option (list City)))
    (routesResponse : Response (option (list Route)))
    (fareResponse : Response (option LocalFare)) (w : World) : Prop :=
  let after := pricing (world (load citiesResponse routesResponse fareResponse w)) in
  (forall data, citiesResponse = Success data -> cities after = or_empty data) /\
  (forall data, routesResponse = Success data -> routes after = or_empty data) /\
  (forall data, fareResponse = Success data -> mumbaiLocal after = data).

(** The frame of a successful [updateRoute], read literally: position by
    position, a route with another id is kept and a route with that id
    keeps its id and its two cities. *)
Definition updateRoute_keeps_cities
    (routeId : string) (fourSeaterPrice sixSeaterPrice : Q) (data : Route)
    (w : World) : Prop :=
  let after :=
    pricing (world (updateRoute routeId fourSeaterPrice sixSeaterPrice
                      (Success data) w)) in
  mumbaiLocal after = mumbaiLocal (pricing w) /\
  cities after = cities (pricing w) /\
  Forall2 (fun before r =>
             (route_id before <> routeId -> r = before) /\
             (route_id before = routeId ->
                route_id r = routeId /\
                from_city r = from_city before /\
                to_city r = to_city before))
          (routes (pricing w)) (routes after).

(** The row "r1" as the remote store returns it after its cities were
    changed there by other means. *)
Definition relocated : Route :=
  {| route_id := "r1"; from_city := "Mumbai"; to_city := "Lonavala";
     price_4_seater := 2600; price_6_seater := 3600 |}.

End AdminStatements.

(** ** Further definitions for the booking form *)

Module Form.
Import Control Booking.
Local Open Scope js_scope.

(** The form state with another distance cell. *)
Definition with_distance (d : Q) (st : FormState) : FormState :=
  {| booking := booking st; distance := d; duration := duration st;
     mumbaiLocalRates := mumbaiLocalRates st |}.

(** The form state before the rates have arrived. *)
Definition without_rates (st : FormState) : FormState :=
  {| booking := booking st; distance := distance st; duration := duration st;
     mumbaiLocalRates := None |}.

(** The rows inserted and the messages handed off in a trace. *)
Definition inserted (trace : list Event) : list BookingRow :=
  flat_map (fun e => match e with InsertBooking row => [row] | _ => [] end) trace.

Definition opened (trace : list Event) : list Message :=
  flat_map (fun e => match e with WindowOpen _ m => [m] | _ => [] end) trace.

(** A well-formed address: local part, "@", domain, ".", suffix, each
    non-empty and free of white space and of "@". *)
Definition email_shape (s : string) : Prop :=
  exists u v w : list ascii,
    list_ascii_of_string s = u ++ ["@"%char] ++ v ++ ["."%char] ++ w /\
    u <> [] /\ v <> [] /\ w <> [] /\
    Forall (fun c => Regex.not_space_at c = true) (u ++ v ++ w).

(** The checks of [handleSubmit], as one proposition. *)
Definition passes_checks (st : FormState) : Prop :=
  ~ missing_required (booking st) /\
  ten_digits (customerPhone (booking st)) /\
  ~ malformed_email (customerEmail (booking st)) /\
  ~ distance st == 0.

End Form.

(** ** Further definitions for the pricing store *)

Module Store.
Import Control Admin.
Local Open Scope js_scope.

(** [localStorage.getItem(key)] *)
Definition getItem (key : string) (storage : list (string * PricingConfig))
  : option PricingConfig :=
  match find (fun kv => fst kv =? key) storage with
  | Some kv => Some (snd kv)
  | None => None
  end.

(** The toasts among some notices. *)
Definition toasts (ns : list Notice) : list Notice :=
  filter (fun n => match n with ConsoleError _ _ => false | _ => true end) ns.

Definition is_success_toast (n : Notice) : bool :=
  match n with ToastSuccess _ => true | _ => false end.

(** No two cached cities and no two cached routes share an id. *)
Definition ids_unique (p : PricingConfig) : Prop :=
  NoDup (map city_id (cities p)) /\ NoDup (map route_id (routes p)).

(** The remote store keeps its side of the id discipline: an inserted row
    comes back with an id not seen before, an updated row with the id that
    was asked for. *)
Definition returned_id_ok (m : Mutation) (p : PricingConfig) : Prop :=
  match m with
  | AddCity _ (Success data) => ~ In (city_id data) (map city_id (cities p))
  | AddRoute _ _ _ _ (Success data) =>
      ~ In (route_id data) (map route_id (routes p))
  | UpdateRoute routeId _ _ (Success data) => route_id data = routeId
  | _ => True
  end.

End Store.

(** ** The admin session (AdminContext.tsx, lines 75-80 and 131-149) *)

Module Session.

Record Admin := mkAdmin {
  id : string;
  username : string;
  isAuthenticated : bool
}.

(** The provider's [admin] cell and the local-storage entry "Saffari_admin"
    (the value is the record that was serialised there). *)
Record SessionState := mkSession {
  admin : option Admin;
  savedAdmin : option Admin
}.

Record LoginResult := mkLoginResult {
  success : bool;
  error : option string
}.

(** [login], lines 131-144. *)
Definition login (user password : string) (s : SessionState)
  : LoginResult * SessionState :=
  if (user =? "admin") && (password =? "admin123") then
    let adminUser :=
      {| id := "admin"; username := "Administrator"; isAuthenticated := true |} in
    ({| success := true; error := None |},
     {| admin := Some adminUser; savedAdmin := Some adminUser |})
  else
    ({| success := false; error := Some "Invalid admin credentials" |}, s).

(** [logout], lines 146-149. *)
Definition logout (s : SessionState) : SessionState :=
  {| admin := None; savedAdmin := None |}.

(** The session part of the mount effect, lines 76-79, on a provider that
    starts with [useState(null)] over the given local storage. *)
Definition mount (storage : option Admin) : SessionState :=
  match storage with
  | Some saved => {| admin := Some saved; savedAdmin := storage |}
  | None => {| admin := None; savedAdmin := storage |}
  end.

End Session.

(** ** The earlier provider (src/unnamed/part_000)

    The same operations over a [PricingConfig] whose local rates are always
    present, with a mount effect that prefers the local-storage snapshot to
    the remote store. *)

Module Earlier.
Import Control.
Local Open Scope js_scope.

Record LocalRates := mkLocalRates {
  fourSeaterRate : Q;
  sixSeaterRate : Q;
  airportFourSeaterRate : Q;
  airportSixSeaterRate : Q
}.

Record PricingConfig := mkPricing {
  mumbaiLocal : LocalRates;
  cities : list City;
  routes : list Route
}.

Definition defaultPricing : PricingConfig :=
  {| mumbaiLocal := {| fourSeaterRate := 15; sixSeaterRate := 18;
                       airportFourSeaterRate := 18; airportSixSeaterRate := 22 |};
     cities := []; routes := [] |}.

(** The [pricing] cell, the local-storage entry "Saffari_mumbai_pricing",
    the requests sent and the toasts shown. *)
Record World := mkWorld {
  pricing : PricingConfig;
  savedPricing : option PricingConfig;
  requests : list Admin.Request;
  toasts : list Admin.Notice
}.

(** A provider that has just been created over the given local storage. *)
Definition created (storage : option PricingConfig) : World :=
  {| pricing := defaultPricing; savedPricing := storage;
     requests := []; toasts := [] |}.

Definition setPricing (f : PricingConfig -> PricingConfig) : M World unit :=
  modify (fun w => {| pricing := f (pricing w); savedPricing := savedPricing w;
                      requests := requests w; toasts := toasts w |}).

Definition notify (n : Admin.Notice) : M World unit :=
  modify (fun w => {| pricing := pricing w; savedPricing := savedPricing w;
                      requests := requests w; toasts := toasts w ++ [n] |}).

Definition await {A} (req : Admin.Request) (r : Response A) : M World A :=
  modify (fun w => {| pricing := pricing w; savedPricing := savedPricing w;
                      requests := requests w ++ [req]; toasts := toasts w |}) ;;
  settle r.

(** [fetchCitiesAndRoutes], lines 91-118. *)
Definition fetchCitiesAndRoutes
    (citiesResponse : Response (option (list City)))
    (routesResponse : Response (option (list Route))) : M World unit :=
  try_catch
    (cities' <- await Admin.SelectCities citiesResponse ;;
     routes' <- await Admin.SelectRoutes routesResponse ;;
     setPricing (fun prev =>
       {| mumbaiLocal := mumbaiLocal prev;
          cities := Admin.or_empty cities';
          routes := Admin.or_empty routes' |}))
    (fun error =>
       notify (Admin.ConsoleError "Error fetching cities and routes:" error) ;;
       notify (Admin.ToastError "Failed to load cities and routes")).

(** The mount effect, lines 74-89, without its session part. *)
Definition mount
    (citiesResponse : Response (option (list City)))
    (routesResponse : Response (option (list Route))) : M World unit :=
  fun w =>
    match savedPricing w with
    | Some saved => setPricing (fun _ => saved) w
    | None => fetchCitiesAndRoutes citiesResponse routesResponse w
    end.

(** [updatePricing], lines 140-143. *)
Definition updatePricing (newPricing : PricingConfig) : M World unit :=
  setPricing (fun _ => newPricing) ;;
  modify (fun w => {| pricing := pricing w; savedPricing := Some newPricing;
                      requests := requests w; toasts := toasts w |}).

(** [addCity], lines 145-171. *)
Definition addCity (cityName : string) (r : Response City) : M World bool :=
  try_catch
    (data <- await (Admin.InsertCity cityName) r ;;
     setPricing (fun prev =>
       {| mumbaiLocal := mumbaiLocal prev;
          cities := cities prev ++ [data];
          routes := routes prev |}) ;;
     notify (Admin.ToastSuccess "City added successfully") ;;
     ret true)
    (fun error =>
       notify (Admin.ConsoleError "Error adding city:" error) ;;
       (if code_is error "23505"
        then notify (Admin.ToastError "City already exists")
        else notify (Admin.ToastError "Failed to add city")) ;;
       ret false).

(** Closing the page and opening it again: a new provider over the local
    storage the old one left. *)
Definition reload (w : World) : World := created (savedPricing w).

End Earlier.

(** ** The location handlers (MumbaiLocalBooking.tsx, lines 187-201) *)

Module Locations.
Import Control Geo.

(** The cells the two handlers read and write: the two address texts of
    [booking], the two coordinate cells, and the cells of
    [calculateRouteDetails]. *)
Record LocationState := mkLocationState {
  pickup : string;
  drop : string;
  pickupCoords : option Coordinates;
  dropCoords : option Coordinates;
  route : RouteState
}.

(** [handlePickupChange(value, coordinates)]; [o] is how the distance
    request settles if one is sent. *)
Definition handlePickupChange (value : string) (coordinates : option Coordinates)
    (o : FetchOutcome) (s : LocationState) : LocationState :=
  match coordinates with
  | Some c =>
      {| pickup := value; drop := drop s;
         pickupCoords := Some c; dropCoords := dropCoords s;
         route :=
           match dropCoords s with
           | Some d => world (calculateRouteDetails c d o (route s))
           | None => route s
           end |}
  | None =>
      {| pickup := value; drop := drop s;
         pickupCoords := pickupCoords s; dropCoords := dropCoords s;
         route := route s |}
  end.

(** [handleDropChange(value, coordinates)] *)
Definition handleDropChange (value : string) (coordinates : option Coordinates)
    (o : FetchOutcome) (s : LocationState) : LocationState :=
  match coordinates with
  | Some c =>
      {| pickup := pickup s; drop := value;
         pickupCoords := pickupCoords s; dropCoords := Some c;
         route :=
           match pickupCoords s with
           | Some p => world (calculateRouteDetails p c o (route s))
           | None => route s
           end |}
  | None =>
      {| pickup := pickup s; drop := value;
         pickupCoords := pickupCoords s; dropCoords := dropCoords s;
         route := route s |}
  end.

(** The component as first rendered. *)
Definition blank : LocationState :=
  {| pickup := ""; drop := ""; pickupCoords := None; dropCoords := None;
     route := idle |}.

End Locations.

(** ** JavaScript numbers as IEEE 754 binary64

    The second reading of the numeric code: a Number is a binary64 value
    ([spec_float] with a 53-bit significand), arithmetic rounds to nearest
    with ties to even, and a cell that was set from a missing property holds
    [undefined]. *)

Module Js64.

Definition number : Type := spec_float.

Definition prec : Z := 53.
Definition emax : Z := 1024.

Definition add : number -> number -> number := SFadd prec emax.
Definition sub : number -> number -> number := SFsub prec emax.
Definition mul : number -> number -> number := SFmul prec emax.
Definition div : number -> number -> number := SFdiv prec emax.
Definition Math_sqrt : number -> number := SFsqrt prec emax.

(** An integer literal. *)
Definition of_Z (z : Z) : number := binary_normalize prec emax z 0 false.

(** A decimal literal [n / 10^k]: the binary64 value nearest to it. *)
Definition decimal (n : Z) (k : nat) : number :=
  div (of_Z n) (of_Z (10 ^ Z.of_nat k)).

Definition NaN : number := S754_nan.
Definition zero : number := S754_zero false.

(** [Math.PI] *)
Definition Math_PI : number := S754_finite false 7074237752028440 (-51).

(** [x === y] and [x < y] on Numbers. *)
Definition strict_eq (x y : number) : bool := SFeqb x y.
Definition lt (x y : number) : bool := SFltb x y.
Definition le (x y : number) : bool := SFleb x y.

Definition finite (x : number) : bool :=
  match x with
  | S754_zero _ | S754_finite _ _ _ => true
  | S754_infinity _ | S754_nan => false
  end.

(** [Math.round]: the integer nearest to [x], ties towards plus infinity;
    NaN, the infinities and the zeros are returned as they are, and a
    negative [x] that rounds to zero gives -0. *)
Definition Math_round (x : number) : number :=
  match x with
  | S754_finite s m (Zneg k) =>
      let signed := if s then Zneg m else Zpos m in
      binary_normalize prec emax
        (Z.shiftr (2 * signed + 2 ^ Zpos k) (Zpos k + 1)) 0 s
  | _ => x
  end.

(** [Math.max(a, b)] *)
Definition Math_max (a b : number) : number :=
  match SFcompare a b with
  | None => NaN
  | Some Lt => b
  | Some Gt => a
  | Some Eq => match a with S754_zero true => b | _ => a end
  end.

(** The content of a state cell that holds a Number or [undefined]. *)
Inductive Value : Type :=
| Undefined
| Number (x : number).

(** [ToNumber] *)
Definition ToNumber (v : Value) : number :=
  match v with
  | Undefined => NaN
  | Number x => x
  end.

(** [v === 0] *)
Definition is_zero (v : Value) : bool :=
  match v with
  | Undefined => false
  | Number x => strict_eq x zero
  end.

(** [v > 0] *)
Definition is_positive (v : Value) : bool := lt zero (ToNumber v).

(** [x || 0] on a Number: 0 for the falsy Numbers (the zeros and NaN). *)
Definition or_zero (x : number) : number :=
  match x with
  | S754_zero _ | S754_nan => zero
  | _ => x
  end.

End Js64.

(** ** The fare estimator over binary64 (MumbaiLocalBooking.tsx) *)

Module Booking64.
Import Js64.

(** A row of [local_fares] as the component receives it. *)
Record LocalFare := mkLocalFare {
  fare_id : string;
  service_area : string;
  normal_4_seater_rate_per_km : number;
  normal_6_seater_rate_per_km : number;
  airport_4_seater_rate_per_km : number;
  airport_6_seater_rate_per_km : number
}.

(** The cells [getFare] and the submit button read. *)
Record FormState := mkForm {
  booking : Booking.Booking;
  distance : Value;
  mumbaiLocalRates : option LocalFare
}.

Record FareDetails := mkFare {
  ratePerKm : number;
  total : number;
  isMinimumFare : bool
}.

(** [getFare], lines 157-185. *)
Definition getFare (st : FormState) : option FareDetails :=
  if is_zero (distance st) then None else
  match mumbaiLocalRates st with
  | None => None
  | Some rates =>
      let ratePerKm :=
        if Booking.tripType (booking st) =? "airport" then
          if Booking.carType (booking st) =? "4-seater"
          then airport_4_seater_rate_per_km rates
          else airport_6_seater_rate_per_km rates
        else
          if Booking.carType (booking st) =? "4-seater"
          then normal_4_seater_rate_per_km rates
          else normal_6_seater_rate_per_km rates in
      let totalFare := Math_round (mul (ToNumber (distance st)) ratePerKm) in
      let isMinimumFare := lt totalFare (of_Z 100) in
      Some {| ratePerKm := ratePerKm;
              total := if isMinimumFare then of_Z 100 else totalFare;
              isMinimumFare := isMinimumFare |}
  end.

(** [getFare()?.total || 0], lines 220 and 281. *)
Definition estimated_total (st : FormState) : number :=
  match getFare st with
  | Some fare => or_zero (total fare)
  | None => zero
  end.

(** [disabled={distance === 0 || isCalculating || !mumbaiLocalRates}],
    line 447. *)
Definition submitDisabled (st : FormState) (isCalculating : bool) : bool :=
  is_zero (distance st) || isCalculating
  || match mumbaiLocalRates st with Some _ => false | None => true end.

(** [distance > 0 && !isCalculating && fareDetails], line 431. *)
Definition breakdownShown (st : FormState) (isCalculating : bool) : bool :=
  is_positive (distance st) && negb isCalculating
  && match getFare st with Some _ => true | None => false end.

(** The 2x2 lookup of the specification, to be compared with [getFare]. *)
Definition spec_selectedRate (rates : LocalFare)
    (t : Booking.TripType) (c : Booking.CarType) : number :=
  match t, c with
  | Booking.Normal, Booking.FourSeater => normal_4_seater_rate_per_km rates
  | Booking.Normal, Booking.SixSeater => normal_6_seater_rate_per_km rates
  | Booking.Airport, Booking.FourSeater => airport_4_seater_rate_per_km rates
  | Booking.Airport, Booking.SixSeater => airport_6_seater_rate_per_km rates
  end.

(** The rate [getFare] reads, by the two string comparisons of the code. *)
Definition rate_read (rates : LocalFare) (trip car : string) : number :=
  if trip =? "airport" then
    if car =? "4-seater"
    then airport_4_seater_rate_per_km rates
    else airport_6_seater_rate_per_km rates
  else
    if car =? "4-seater"
    then normal_4_seater_rate_per_km rates
    else normal_6_seater_rate_per_km rates.

(** The rates of the end-to-end scenario. *)
Definition scenario_rates : LocalFare :=
  {| fare_id := "1"; service_area := "Mumbai Local";
     normal_4_seater_rate_per_km := of_Z 15;
     normal_6_seater_rate_per_km := of_Z 18;
     airport_4_seater_rate_per_km := of_Z 18;
     airport_6_seater_rate_per_km := of_Z 22 |}.

Definition scenario_form (trip car : string) (km : Value) : FormState :=
  {| booking := Booking.scenario_booking trip car;
     distance := km;
     mumbaiLocalRates := Some scenario_rates |}.

(** Rates of 10 and 15 per km, for the examples of rounding. *)
Definition round_rates : LocalFare :=
  {| fare_id := "2"; service_area := "Mumbai Local";
     normal_4_seater_rate_per_km := of_Z 10;
     normal_6_seater_rate_per_km := of_Z 15;
     airport_4_seater_rate_per_km := of_Z 10;
     airport_6_seater_rate_per_km := of_Z 15 |}.

Definition round_form (car : string) (km : number) : FormState :=
  {| booking := Booking.scenario_booking "normal" car;
     distance := Number km;
     mumbaiLocalRates := Some round_rates |}.

End Booking64.

(** ** Distance estimation over binary64 (MumbaiLocalBooking.tsx, lines 88-155)

    [Math.sin], [Math.cos] and [Math.atan2] are approximated by the engine:
    the language fixes their value at a few arguments only.  They are
    taken from a [Runtime]. *)

Module Geo64.
Import Control Js64.
Local Open Scope js_scope.

Record Runtime := mkRuntime {
  Math_sin : number -> number;
  Math_cos : number -> number;
  Math_atan2 : number -> number -> number
}.

Record Coordinates := mkCoordinates {
  lat : number;
  lng : number
}.

Section WithRuntime.
Variable rt : Runtime.

(** The haversine term [a] and the angle [c] of
    [calculateStraightLineDistance]. *)
Definition haversine_a (pickup drop : Coordinates) : number :=
  let dLat := div (mul (sub (lat drop) (lat pickup)) Math_PI) (of_Z 180) in
  let dLng := div (mul (sub (lng drop) (lng pickup)) Math_PI) (of_Z 180) in
  add
    (mul (Math_sin rt (div dLat (of_Z 2))) (Math_sin rt (div dLat (of_Z 2))))
    (mul
       (mul
          (mul (Math_cos rt (div (mul (lat pickup) Math_PI) (of_Z 180)))
               (Math_cos rt (div (mul (lat drop) Math_PI) (of_Z 180))))
          (Math_sin rt (div dLng (of_Z 2))))
       (Math_sin rt (div dLng (of_Z 2)))).

Definition central_angle (pickup drop : Coordinates) : number :=
  let a := haversine_a pickup drop in
  mul (of_Z 2) (Math_atan2 rt (Math_sqrt a) (Math_sqrt (sub (of_Z 1) a))).

(** [calculateStraightLineDistance], lines 88-100. *)
Definition calculateStraightLineDistance (pickup drop : Coordinates) : number :=
  let R := of_Z 6371 in
  let c := central_angle pickup drop in
  div (Math_round (mul (mul R c) (of_Z 100))) (of_Z 100).

(** The parsed body of an answer of the distance service: a property that
    is missing reads as [undefined]. *)
Record DistanceResult := mkDistanceResult {
  result_distance : Value;
  result_duration : Value
}.

Inductive FetchOutcome : Type :=
| FetchRejected (error : JsError)
| FetchResponse (ok : bool) (status : Z) (json : Response DistanceResult).

Record RouteState := mkRouteState {
  distance : Value;
  duration : Value;
  isCalculating : bool;
  console : list (string * JsError)
}.

Definition setDistance (d : Value) : M RouteState unit :=
  modify (fun s => {| distance := d; duration := duration s;
                      isCalculating := isCalculating s; console := console s |}).

Definition setDuration (d : Value) : M RouteState unit :=
  modify (fun s => {| distance := distance s; duration := d;
                      isCalculating := isCalculating s; console := console s |}).

Definition setIsCalculating (b : bool) (s : RouteState) : RouteState :=
  {| distance := distance s; duration := duration s;
     isCalculating := b; console := console s |}.

Definition console_error (label : string) (e : JsError) : M RouteState unit :=
  modify (fun s => {| distance := distance s; duration := duration s;
                      isCalculating := isCalculating s;
                      console := console s ++ [(label, e)] |}).

Definition await_fetch (o : FetchOutcome)
  : M RouteState (bool * Z * Response DistanceResult) :=
  match o with
  | FetchRejected error => throw error
  | FetchResponse ok status json => ret (ok, status, json)
  end.

(** [calculateRouteDetails], lines 133-155. *)
Definition calculateRouteDetails (pickup drop : Coordinates) (o : FetchOutcome)
  : M RouteState unit :=
  modify (setIsCalculating true) ;;
  try_finally
    (try_catch
       (response <- await_fetch o ;;
        let '(ok, status, json) := response in
        if ok : bool then
          result <- settle json ;;
          setDistance (result_distance result) ;;
          setDuration (result_duration result)
        else throw (api_error status))
       (fun error =>
          console_error "Error calculating route with Google Distance Matrix:" error ;;
          let straightDistance := calculateStraightLineDistance pickup drop in
          setDistance (Number straightDistance) ;;
          setDuration (Number (Math_round (mul straightDistance (of_Z 3))))))
    (setIsCalculating false).

End WithRuntime.

(** The service did not deliver a body: the call failed, the response was
    not a success, or its body could not be read. *)
Definition service_failed (o : FetchOutcome) : Prop :=
  match o with
  | FetchRejected _ => True
  | FetchResponse ok _ json =>
      ok = false \/ match json with Failure _ => True | Success _ => False end
  end.

Definition idle : RouteState :=
  {| distance := Number zero; duration := Number zero;
     isCalculating := false; console := [] |}.

Definition unreachable : FetchOutcome :=
  FetchRejected {| err_code := None; err_message := "Failed to fetch" |}.

(** The fallback duration, read literally: three times the distance. *)
Definition fallback_duration_is_triple (rt : Runtime)
    (pickup drop : Coordinates) (o : FetchOutcome) (s : RouteState) : Prop :=
  service_failed o ->
  let s' := world (calculateRouteDetails rt pickup drop o s) in
  duration s' = Number (mul (ToNumber (distance s')) (of_Z 3)).

(** *** A runtime for the closed examples

    Sine, cosine and arctangent by the first terms of their power series,
    evaluated in binary64: exact at 0 and accurate to the last digits for
    the small angles of the examples. *)

Definition power_series (x : number) (first : number) (divisors : list Z)
  : number :=
  (* first - first*x^2/d1 + first*x^4/d2 - ..., the signs alternating *)
  snd (fold_left
         (fun '(power, minus, acc) d =>
            let power' := mul (mul power x) x in
            let term := div power' (of_Z d) in
            (power', negb minus, if minus then sub acc term else add acc term))
         divisors (first, true, first)).

Definition sin_series (x : number) : number :=
  power_series x x [6; 120; 5040; 362880]%Z.

Definition cos_series (x : number) : number :=
  power_series x (of_Z 1) [2; 24; 720; 40320]%Z.

Definition atan_series (z : number) : number :=
  power_series z z [3; 5; 7; 9]%Z.

(** The angle of the point (x, y), by quadrant. *)
Definition atan2_series (y x : number) : number :=
  if lt zero x then atan_series (div y x)
  else if lt x zero then
    if lt y zero then sub (atan_series (div y x)) Math_PI
    else add (atan_series (div y x)) Math_PI
  else if lt zero y then div Math_PI (of_Z 2)
  else if lt y zero then div Math_PI (of_Z (-2))
  else y.

Definition series_runtime : Runtime :=
  {| Math_sin := sin_series; Math_cos := cos_series; Math_atan2 := atan2_series |}.

(** Two points of the equator, 0.005 degrees apart (about 556 m), and a
    point of Mumbai. *)
Definition equator_origin : Coordinates := {| lat := zero; lng := zero |}.
Definition equator_near : Coordinates := {| lat := zero; lng := decimal 5 3 |}.
Definition dadar : Coordinates :=
  {| lat := decimal 190178 4; lng := decimal 728478 4 |}.

End Geo64.

(** * Proofs *)

(** ** The matcher decides the language of a pattern *)

Module RegexProofs.
Import Regex.

Lemma Lang_Seq_inv r1 r2 s :
  Lang (Seq r1 r2) s ->
  exists s1 s2, s = s1 ++ s2 /\ Lang r1 s1 /\ Lang r2 s2.
Proof. intros H. inversion H; subst. eauto. Qed.

Lemma Lang_Alt_inv r1 r2 s : Lang (Alt r1 r2) s -> Lang r1 s \/ Lang r2 s.
Proof. intros H. inversion H; subst; auto. Qed.

Lemma Lang_Class_inv p s :
  Lang (Class p) s -> exists c, s = [c] /\ p c = true.
Proof. intros H. inversion H; subst. eauto. Qed.

Lemma Lang_Star_cons r c s :
  Lang (Star r) (c :: s) ->
  exists s1 s2, s = s1 ++ s2 /\ Lang r (c :: s1) /\ Lang (Star r) s2.
Proof.
  intros H. remember (Star r) as r' eqn:Er. remember (c :: s) as s' eqn:Es.
  induction H; try discriminate.
  injection Er as ->.
  destruct s1 as [|c1 s1].
  - simpl in Es. apply IHLang2; [reflexivity | assumption].
  - simpl in Es. injection Es as Ec Es'. subst c1 s. eauto.
Qed.

Lemma nullable_spec r : nullable r = true <-> Lang r [].
Proof.
  induction r; simpl.
  - split; [discriminate | intros H; inversion H].
  - split; [constructor | reflexivity].
  - split; [discriminate | intros H; inversion H].
  - rewrite andb_true_iff, IHr1, IHr2. split.
    + intros [H1 H2]. change (@nil ascii) with (@nil ascii ++ []).
      now constructor.
    + intros H. apply Lang_Seq_inv in H as (s1 & s2 & E & H1 & H2).
      symmetry in E. apply app_eq_nil in E as [-> ->]. auto.
  - rewrite orb_true_iff, IHr1, IHr2. split.
    + intros [H | H]; [apply LAltL | apply LAltR]; assumption.
    + apply Lang_Alt_inv.
  - split; [constructor | reflexivity].
Qed.

Lemma deriv_spec c r : forall s, Lang (deriv c r) s <-> Lang r (c :: s).
Proof.
  induction r; intros s; simpl.
  - split; intros H; inversion H.
  - split; intros H; inversion H.
  - destruct (p c) eqn:E; split; intros H.
    + inversion H; subst. now constructor.
    + apply Lang_Class_inv in H as (c' & Ec & _).
      injection Ec as _ ->. constructor.
    + inversion H.
    + apply Lang_Class_inv in H as (c' & Ec & Hp).
      injection Ec as -> _. congruence.
  - assert (Hseq : Lang (Seq (deriv c r1) r2) s ->
                   Lang (Seq r1 r2) (c :: s)).
    { intros H. apply Lang_Seq_inv in H as (s1 & s2 & -> & H1 & H2).
      apply IHr1 in H1. change (c :: s1 ++ s2) with ((c :: s1) ++ s2).
      now constructor. }
    assert (Hinv : Lang (Seq r1 r2) (c :: s) ->
                   Lang (Seq (deriv c r1) r2) s \/
                   (Lang r1 [] /\ Lang r2 (c :: s))).
    { intros H. apply Lang_Seq_inv in H as (s1 & s2 & E & H1 & H2).
      destruct s1 as [|c1 s1]; simpl in E.
      - subst s2. right. auto.
      - injection E as -> ->. left. constructor; [now apply IHr1 | assumption]. }
    destruct (nullable r1) eqn:N.
    + split.
      * intros H. apply Lang_Alt_inv in H as [H | H]; [auto |].
        apply IHr2 in H. apply nullable_spec in N.
        change (c :: s) with ([] ++ c :: s). now constructor.
      * intros H. apply Hinv in H as [H | [_ H]].
        -- now apply LAltL.
        -- apply LAltR. now apply IHr2.
    + split; [exact Hseq |].
      intros H. apply Hinv in H as [H | [H _]]; [assumption |].
      apply nullable_spec in H. congruence.
  - split.
    + intros H. apply Lang_Alt_inv in H as [H | H].
      * apply LAltL. now apply IHr1.
      * apply LAltR. now apply IHr2.
    + intros H. apply Lang_Alt_inv in H as [H | H].
      * apply LAltL. now apply IHr1.
      * apply LAltR. now apply IHr2.
  - split.
    + intros H. apply Lang_Seq_inv in H as (s1 & s2 & -> & H1 & H2).
      apply IHr in H1. change (c :: s1 ++ s2) with ((c :: s1) ++ s2).
      now constructor.
    + intros H. apply Lang_Star_cons in H as (s1 & s2 & -> & H1 & H2).
      constructor; [now apply IHr | assumption].
Qed.

Lemma matches_spec r s : matches r s = true <-> Lang r s.
Proof.
  revert r. induction s as [|c s IH]; intros r; simpl.
  - apply nullable_spec.
  - rewrite IH. apply deriv_spec.
Qed.

(** [p{n}] accepts exactly the strings of [n] characters of class [p]. *)
Lemma Lang_Repeat_Class p n s :
  Lang (Repeat n (Class p)) s <->
  List.length s = n /\ Forall (fun c => p c = true) s.
Proof.
  revert s. induction n as [|n IH]; intros s; simpl.
  - split.
    + intros H. inversion H; subst. auto.
    + intros [E _]. apply length_zero_iff_nil in E as ->. constructor.
  - split.
    + intros H. apply Lang_Seq_inv in H as (s1 & s2 & -> & H1 & H2).
      apply Lang_Class_inv in H1 as (c & -> & Hp).
      apply IH in H2 as [El Hall]. simpl. split; [congruence | now constructor].
    + intros [El Hall]. destruct s as [|c s]; [discriminate |].
      inversion Hall; subst. injection El as El.
      change (c :: s) with ([c] ++ s). constructor.
      * now constructor.
      * apply IH. auto.
Qed.

Lemma length_list_ascii_of_string s :
  List.length (list_ascii_of_string s) = String.length s.
Proof. induction s; simpl; congruence. Qed.

End RegexProofs.

(** ** The fare estimator *)

Module FareProofs.
Import Booking.

Lemma is_zero_true_iff (d : Q) : is_zero d = true <-> d == 0.
Proof. unfold is_zero. apply Qeq_bool_iff. Qed.

Lemma is_zero_false_iff (d : Q) : is_zero d = false <-> ~ d == 0.
Proof.
  rewrite <- is_zero_true_iff. destruct (is_zero d); split; congruence.
Qed.

Lemma is_zero_false_of_pos (d : Q) : 0 < d -> is_zero d = false.
Proof.
  intros Hd. apply is_zero_false_iff. intros E. rewrite E in Hd.
  now apply Qlt_irrefl in Hd.
Qed.

Lemma clamp_is_max (t : Z) :
  (if (t <? 100)%Z then 100%Z else t) = Z.max 100 t.
Proof. destruct (Z.ltb_spec t 100); lia. Qed.

Lemma getFare_ready (st : FormState) (rates : LocalFare) :
  is_zero (distance st) = false ->
  mumbaiLocalRates st = Some rates ->
  getFare st =
    Some (fare_of (distance st)
            (rate_read rates (tripType (booking st)) (carType (booking st)))).
Proof.
  intros Hz Hr. unfold getFare, fare_of, rate_read. rewrite Hz, Hr. cbv zeta.
  now rewrite clamp_is_max.
Qed.

Lemma getFare_not_ready (st : FormState) :
  is_zero (distance st) = true \/ mumbaiLocalRates st = None ->
  getFare st = None.
Proof.
  unfold getFare. intros [-> | ->]; [reflexivity |].
  now destruct (is_zero (distance st)).
Qed.

(** C6. [getFare] gives the absent result exactly when the distance is 0 or
    the rates are not loaded, and a fare breakdown in every other case; it
    is a total function, so the absent result is a value, never a throw. *)
Theorem getFare_absent_iff_not_ready (st : FormState) :
  (getFare st = None <-> (distance st == 0 \/ mumbaiLocalRates st = None))
  /\ (~ (distance st == 0 \/ mumbaiLocalRates st = None) ->
      exists fare, getFare st = Some fare).
Proof.
  assert (Hnone : distance st == 0 \/ mumbaiLocalRates st = None ->
                  getFare st = None).
  { intros [H | H]; apply getFare_not_ready; [left | right; exact H].
    now apply is_zero_true_iff. }
  assert (Hsome : ~ (distance st == 0 \/ mumbaiLocalRates st = None) ->
                  exists fare, getFare st = Some fare).
  { intros Hn. destruct (mumbaiLocalRates st) as [rates|] eqn:Er; [| tauto].
    eexists. apply (getFare_ready st rates); [| exact Er].
    apply is_zero_false_iff. tauto. }
  split; [split; [| exact Hnone] | exact Hsome].
  intros Hg. destruct (is_zero (distance st)) eqn:Ez.
  - left. now apply is_zero_true_iff.
  - right. destruct (mumbaiLocalRates st) as [rates|] eqn:Er; [| reflexivity].
    rewrite (getFare_ready st rates Ez Er) in Hg. discriminate.
Qed.

Lemma getFare_absent_iff_not_ready_witness :
  getFare (scenario_form "normal" "4-seater" 0) = None
  /\ exists fare, getFare (scenario_form "normal" "4-seater" 12) = Some fare.
Proof.
  split.
  - apply (proj1 (getFare_absent_iff_not_ready
                    (scenario_form "normal" "4-seater" 0))).
    left. reflexivity.
  - apply (proj2 (getFare_absent_iff_not_ready
                    (scenario_form "normal" "4-seater" 12))).
    intros [H | H]; discriminate.
Defined.

(** C10. The rate selection is total over strings: whenever the distance is
    positive and the rates are loaded there is a fare breakdown, computed
    with the airport rates exactly when the trip type is "airport" and with
    the 4-seater rates exactly when the car type is "4-seater"; every other
    car type gets the 6-seater rate and every other trip type the normal
    rate. *)
Theorem getFare_total_over_strings
    (st : FormState) (rates : LocalFare) :
  0 < distance st ->
  mumbaiLocalRates st = Some rates ->
  exists fare,
    getFare st = Some fare /\
    let trip := tripType (booking st) in
    let car := carType (booking st) in
    (trip <> "airport" -> car <> "4-seater" ->
       ratePerKm fare = normal_6_seater_rate_per_km rates) /\
    (trip <> "airport" -> car = "4-seater" ->
       ratePerKm fare = normal_4_seater_rate_per_km rates) /\
    (trip = "airport" -> car <> "4-seater" ->
       ratePerKm fare = airport_6_seater_rate_per_km rates) /\
    (trip = "airport" -> car = "4-seater" ->
       ratePerKm fare = airport_4_seater_rate_per_km rates).
Proof.
  intros Hd Hr. eexists. split.
  - apply (getFare_ready st rates (is_zero_false_of_pos _ Hd) Hr).
  - cbv zeta. unfold fare_of, rate_read, ratePerKm.
    destruct (String.eqb_spec (tripType (booking st)) "airport");
      destruct (String.eqb_spec (carType (booking st)) "4-seater");
      repeat split; intros; congruence.
Qed.

Lemma getFare_total_over_strings_witness :
  exists fare,
    getFare (scenario_form "outstation" "minibus" 10) = Some fare /\
    ratePerKm fare = 18.
Proof.
  destruct (getFare_total_over_strings
              (scenario_form "outstation" "minibus" 10) scenario_rates)
    as (fare & Hf & H66 & _); [reflexivity | reflexivity |].
  exists fare. split; [exact Hf |].
  apply H66; discriminate.
Defined.

End FareProofs.

(** ** Form submission *)

Module SubmitProofs.
Import Control Booking.

Lemma truthy_false_iff (s : string) : truthy s = false <-> s = "".
Proof. destruct s; simpl; split; congruence. Qed.

Lemma truthy_true_iff (s : string) : truthy s = true <-> s <> "".
Proof. destruct s; simpl; split; congruence. Qed.

Lemma isValidPhoneNumber_iff (phone : string) :
  isValidPhoneNumber phone = true <-> ten_digits phone.
Proof.
  unfold isValidPhoneNumber, Regex.test, phoneRegex, ten_digits.
  rewrite RegexProofs.matches_spec, RegexProofs.Lang_Repeat_Class.
  now rewrite RegexProofs.length_list_ascii_of_string.
Qed.

Lemma required_check_iff (b : Booking) :
  negb (truthy (customerName b)) || negb (truthy (customerPhone b))
  || negb (truthy (pickup b)) || negb (truthy (drop b))
  || negb (truthy (date b)) || negb (truthy (time b)) = true
  <-> missing_required b.
Proof.
  unfold missing_required.
  rewrite !orb_true_iff, !negb_true_iff, !truthy_false_iff. tauto.
Qed.

Lemma email_check_iff (email : string) :
  truthy email && negb (isValidEmail email) = true <-> malformed_email email.
Proof.
  unfold malformed_email.
  now rewrite andb_true_iff, negb_true_iff, truthy_true_iff.
Qed.

Lemma not_true_false (b : bool) (P : Prop) :
  (b = true <-> P) -> ~ P -> b = false.
Proof. destruct b; intuition congruence. Qed.

(** The handler as a decision list over the four checks of the code. *)
Lemma handleSubmit_rejects (st : FormState) (saved : Response unit)
    (trace : list Event) :
  let b := booking st in
  (missing_required b ->
     handleSubmit st saved trace
     = (Returned tt, trace ++ [ToastError "Please fill all required fields"]))
  /\ (~ missing_required b -> ~ ten_digits (customerPhone b) ->
     handleSubmit st saved trace
     = (Returned tt,
        trace ++ [ToastError "Please enter a valid 10-digit phone number."]))
  /\ (~ missing_required b -> ten_digits (customerPhone b) ->
      malformed_email (customerEmail b) ->
     handleSubmit st saved trace
     = (Returned tt, trace ++ [ToastError "Please enter a valid email address."]))
  /\ (~ missing_required b -> ten_digits (customerPhone b) ->
      ~ malformed_email (customerEmail b) -> distance st == 0 ->
     handleSubmit st saved trace
     = (Returned tt,
        trace ++ [ToastError
                    "Unable to calculate distance. Please check your locations."])).
Proof.
  cbv zeta. unfold handleSubmit.
  repeat split.
  - intros Hm. apply required_check_iff in Hm. now rewrite Hm.
  - intros Hm Hp.
    rewrite (not_true_false _ _ (required_check_iff _) Hm).
    rewrite (not_true_false _ _ (isValidPhoneNumber_iff _) Hp). reflexivity.
  - intros Hm Hp He.
    rewrite (not_true_false _ _ (required_check_iff _) Hm).
    apply isValidPhoneNumber_iff in Hp. rewrite Hp.
    apply email_check_iff in He. now rewrite He.
  - intros Hm Hp He Hd.
    rewrite (not_true_false _ _ (required_check_iff _) Hm).
    apply isValidPhoneNumber_iff in Hp. rewrite Hp.
    rewrite (not_true_false _ _ (email_check_iff _) He).
    apply FareProofs.is_zero_true_iff in Hd. now rewrite Hd.
Qed.

Lemma handleSubmit_accepts (st : FormState) (saved : Response unit)
    (trace : list Event) :
  let b := booking st in
  ~ missing_required b -> ten_digits (customerPhone b) ->
  ~ malformed_email (customerEmail b) -> ~ distance st == 0 ->
  handleSubmit st saved trace
  = (Returned tt, trace ++ handoff st ++ after_save saved).
Proof.
  cbv zeta. intros Hm Hp He Hd. unfold handleSubmit.
  rewrite (not_true_false _ _ (required_check_iff _) Hm).
  apply isValidPhoneNumber_iff in Hp. rewrite Hp.
  rewrite (not_true_false _ _ (email_check_iff _) He).
  apply FareProofs.is_zero_false_iff in Hd. rewrite Hd.
  unfold handoff, after_save.
  destruct saved as [[] | error];
    cbv [bind ret throw modify try_catch settle emit
         saveBookingToDatabase_settled negb];
    rewrite <- !app_assoc; reflexivity.
Qed.

Lemma ten_digits_dec (s : string) : ten_digits s \/ ~ ten_digits s.
Proof.
  destruct (isValidPhoneNumber s) eqn:E.
  - left. now apply isValidPhoneNumber_iff.
  - right. intros H. apply isValidPhoneNumber_iff in H. congruence.
Qed.

Lemma missing_required_dec (b : Booking) :
  missing_required b \/ ~ missing_required b.
Proof.
  rewrite <- required_check_iff.
  match goal with |- ?c = true \/ _ => destruct c end; [now left | right].
  discriminate.
Qed.

Lemma malformed_email_dec (s : string) :
  malformed_email s \/ ~ malformed_email s.
Proof.
  rewrite <- email_check_iff.
  match goal with |- ?c = true \/ _ => destruct c end; [now left | right].
  discriminate.
Qed.

(** C8. A submission that fails a check (a required field among name, phone,
    pickup, drop, date and time is empty; the phone is not ten digits; the
    email is non-empty and malformed; the distance is 0) only adds the
    notification of the first failing check: nothing is inserted and no
    link is opened.  The phone check is exactly the ten-digit rule:
    "1234567890" passes, "12345" and "12345abcde" do not. *)
Theorem validation_failure_blocks_submission :
  (forall (st : FormState) (saved : Response unit) (trace : list Event),
      let b := booking st in
      missing_required b \/ ~ ten_digits (customerPhone b) \/
      malformed_email (customerEmail b) \/ distance st == 0 ->
      exists text,
        In text validation_texts /\
        handleSubmit st saved trace = (Returned tt, trace ++ [ToastError text]))
  /\ (forall (st : FormState) (saved : Response unit) (trace : list Event),
      let b := booking st in
      (missing_required b ->
         handleSubmit st saved trace
         = (Returned tt, trace ++ [ToastError "Please fill all required fields"]))
      /\ (~ missing_required b -> ~ ten_digits (customerPhone b) ->
         handleSubmit st saved trace
         = (Returned tt,
            trace ++ [ToastError "Please enter a valid 10-digit phone number."]))
      /\ (~ missing_required b -> ten_digits (customerPhone b) ->
          malformed_email (customerEmail b) ->
         handleSubmit st saved trace
         = (Returned tt,
            trace ++ [ToastError "Please enter a valid email address."]))
      /\ (~ missing_required b -> ten_digits (customerPhone b) ->
          ~ malformed_email (customerEmail b) -> distance st == 0 ->
         handleSubmit st saved trace
         = (Returned tt,
            trace ++ [ToastError
              "Unable to calculate distance. Please check your locations."])))
  /\ (forall phone : string, isValidPhoneNumber phone = true <-> ten_digits phone)
  /\ isValidPhoneNumber "1234567890" = true
  /\ isValidPhoneNumber "12345" = false
  /\ isValidPhoneNumber "12345abcde" = false.
Proof.
  split; [| split; [exact handleSubmit_rejects | split;
    [exact isValidPhoneNumber_iff | repeat split; reflexivity]]].
  intros st saved trace b Hfail.
  destruct (handleSubmit_rejects st saved trace) as (H1 & H2 & H3 & H4).
  fold b in H1, H2, H3, H4.
  destruct (missing_required_dec b) as [Hm | Hm].
  { eexists. split; [| exact (H1 Hm)]. simpl. tauto. }
  destruct (ten_digits_dec (customerPhone b)) as [Hp | Hp].
  2:{ eexists. split; [| exact (H2 Hm Hp)]. simpl. tauto. }
  destruct (malformed_email_dec (customerEmail b)) as [He | He].
  { eexists. split; [| exact (H3 Hm Hp He)]. simpl. tauto. }
  destruct Hfail as [Hf | [Hf | [Hf | Hf]]]; try contradiction.
  eexists. split; [| exact (H4 Hm Hp He Hf)]. simpl. tauto.
Qed.

Lemma validation_failure_blocks_submission_witness :
  exists text,
    In text validation_texts /\
    handleSubmit (with_booking (with_phone "12345abcde" (booking valid_form))
                    valid_form)
      (Success tt) []
    = (Returned tt, [ToastError text]).
Proof.
  apply (proj1 validation_failure_blocks_submission
           (with_booking (with_phone "12345abcde" (booking valid_form)) valid_form)
           (Success tt) []).
  right. left. intros [_ Hd]. simpl in Hd.
  do 5 (apply Forall_inv_tail in Hd). apply Forall_inv in Hd. discriminate.
Defined.

(** C9. A submission that passes every check issues the insert, opens the
    messaging link with the constructed message and announces the redirect,
    whatever the insert answers; a failed insert only adds a console entry
    and a failure notification afterwards. *)
Theorem save_failure_does_not_block_handoff
    (st : FormState) (saved : Response unit) (trace : list Event) :
  let b := booking st in
  ~ missing_required b -> ten_digits (customerPhone b) ->
  ~ malformed_email (customerEmail b) -> ~ distance st == 0 ->
  handleSubmit st saved trace
    = (Returned tt, trace ++ handoff st ++ after_save saved)
  /\ In (WindowOpen "919860146819" (buildMessage st))
        (world (handleSubmit st saved trace))
  /\ (forall error, saved = Failure error ->
        In (ConsoleError "Error saving booking:" error)
           (world (handleSubmit st saved trace)) /\
        In (ToastError "Failed to save booking. Please try again.")
           (world (handleSubmit st saved trace))).
Proof.
  intros b Hm Hp He Hd.
  pose proof (handleSubmit_accepts st saved trace Hm Hp He Hd) as Hrun.
  rewrite Hrun. unfold world. simpl snd.
  split; [reflexivity | split].
  - apply in_or_app. right. simpl. tauto.
  - intros error ->. split; apply in_or_app; right; simpl; tauto.
Qed.

Lemma save_failure_does_not_block_handoff_witness :
  handleSubmit valid_form (Failure save_failed) []
  = (Returned tt, [] ++ handoff valid_form ++ after_save (Failure save_failed)).
Proof.
  refine (proj1 (save_failure_does_not_block_handoff
                   valid_form (Failure save_failed) [] _ _ _ _)).
  - unfold missing_required. simpl. intuition discriminate.
  - split; [reflexivity |]. simpl. repeat constructor.
  - intros [_ H]. vm_compute in H. discriminate.
  - intros H. discriminate.
Defined.

End SubmitProofs.

(** ** The pricing store *)

Module AdminProofs.
Import Control Admin AdminStatements.

Ltac run :=
  cbv [bind ret throw modify try_catch settle await setPricing notify setItem
       result world fst snd
       addCity removeCity addRoute updateRoute deleteRoute
       fetchCitiesAndRoutes fetchLocalFares load updatePricing perform
       pricing localStorage requests notices mumbaiLocal cities routes].

Lemma code_is_iff (e : JsError) (c : string) :
  code_is e c = true <-> err_code e = Some c.
Proof.
  unfold code_is. destruct (err_code e) as [c'|].
  - rewrite String.eqb_eq. split; congruence.
  - split; discriminate.
Qed.

Lemma code_is_false_iff (e : JsError) (c : string) :
  code_is e c = false <-> err_code e <> Some c.
Proof.
  rewrite <- code_is_iff. destruct (code_is e c); split; congruence.
Qed.

(** Every operation, by the answer of its remote call. *)

Lemma addCity_success cityName data w :
  addCity cityName (Success data) w
  = (Returned true,
     {| pricing := {| mumbaiLocal := mumbaiLocal (pricing w);
                      cities := cities (pricing w) ++ [data];
                      routes := routes (pricing w) |};
        localStorage := localStorage w;
        requests := requests w ++ [InsertCity cityName];
        notices := notices w ++ [ToastSuccess "City added successfully"] |}).
Proof. reflexivity. Qed.

Lemma addCity_failure cityName error w :
  addCity cityName (Failure error) w
  = (Returned false,
     {| pricing := pricing w;
        localStorage := localStorage w;
        requests := requests w ++ [InsertCity cityName];
        notices := notices w ++
          [ConsoleError "Error adding city:" error;
           ToastError (if code_is error "23505"
                       then "City already exists" else "Failed to add city")] |}).
Proof.
  run. destruct w as [p ls rq nt]; cbn.
  destruct (code_is error "23505"); cbn; rewrite <- app_assoc; reflexivity.
Qed.

Lemma addRoute_success f t p4 p6 data w :
  addRoute f t p4 p6 (Success data) w
  = (Returned true,
     {| pricing := {| mumbaiLocal := mumbaiLocal (pricing w);
                      cities := cities (pricing w);
                      routes := routes (pricing w) ++ [data] |};
        localStorage := localStorage w;
        requests := requests w ++ [InsertRoute f t p4 p6];
        notices := notices w ++ [ToastSuccess "Route added successfully"] |}).
Proof. reflexivity. Qed.

Lemma addRoute_failure f t p4 p6 error w :
  addRoute f t p4 p6 (Failure error) w
  = (Returned false,
     {| pricing := pricing w;
        localStorage := localStorage w;
        requests := requests w ++ [InsertRoute f t p4 p6];
        notices := notices w ++
          [ConsoleError "Error adding route:" error;
           ToastError (if code_is error "23505"
                       then "Route already exists" else "Failed to add route")] |}).
Proof.
  run. destruct w as [p ls rq nt]; cbn.
  destruct (code_is error "23505"); cbn; rewrite <- app_assoc; reflexivity.
Qed.

Lemma removeCity_success cityId w :
  removeCity cityId (Success tt) w
  = (Returned true,
     {| pricing := {| mumbaiLocal := mumbaiLocal (pricing w);
                      cities := filter (fun c => negb (city_id c =? cityId))
                                  (cities (pricing w));
                      routes := routes (pricing w) |};
        localStorage := localStorage w;
        requests := requests w ++ [DeleteCity cityId];
        notices := notices w ++ [ToastSuccess "City removed successfully"] |}).
Proof. reflexivity. Qed.

Lemma updateRoute_success routeId p4 p6 data w :
  updateRoute routeId p4 p6 (Success data) w
  = (Returned true,
     {| pricing := {| mumbaiLocal := mumbaiLocal (pricing w);
                      cities := cities (pricing w);
                      routes := map (fun r => if route_id r =? routeId
                                              then data else r)
                                  (routes (pricing w)) |};
        localStorage := localStorage w;
        requests := requests w ++ [UpdateRoutePrices routeId p4 p6];
        notices := notices w ++ [ToastSuccess "Route updated successfully"] |}).
Proof. reflexivity. Qed.

Lemma deleteRoute_success routeId w :
  deleteRoute routeId (Success tt) w
  = (Returned true,
     {| pricing := {| mumbaiLocal := mumbaiLocal (pricing w);
                      cities := cities (pricing w);
                      routes := filter (fun r => negb (route_id r =? routeId))
                                  (routes (pricing w)) |};
        localStorage := localStorage w;
        requests := requests w ++ [DeleteRouteById routeId];
        notices := notices w ++ [ToastSuccess "Route deleted successfully"] |}).
Proof. reflexivity. Qed.

Lemma perform_failure (m : Mutation) (w : World) :
  remote_succeeded m = false ->
  result (perform m w) = Returned false /\
  pricing (world (perform m w)) = pricing w /\
  localStorage (world (perform m w)) = localStorage w /\
  requests (world (perform m w)) = requests w ++ [request_of m].
Proof.
  destruct m as [n r | i r | f t p4 p6 r | i p4 p6 r | i r];
    destruct r as [data | error]; try discriminate; intros _;
    destruct w as [p ls rq nt]; run; cbn;
    try (destruct (code_is error "23505")); cbn; auto.
Qed.

Lemma perform_success (m : Mutation) (w : World) :
  remote_succeeded m = true ->
  result (perform m w) = Returned true /\
  localStorage (world (perform m w)) = localStorage w /\
  requests (world (perform m w)) = requests w ++ [request_of m].
Proof.
  destruct m as [n r | i r | f t p4 p6 r | i p4 p6 r | i r];
    destruct r as [data | error]; try discriminate; intros _;
    destruct w as [p ls rq nt]; cbn; auto.
Qed.

(** C3. [addCity] and [addRoute] return a boolean and never throw.  When the
    insert is refused with the unique-constraint code 23505 they report
    "already exists" and leave the pricing aggregate (hence the number of
    cities and routes) as it was; when the insert succeeds they append
    exactly the returned row at the end of the list; any other failure is
    reported as a generic failure. *)
Theorem add_outcomes :
  (forall (cityName : string) (r : Response City) (w : World),
      let out := addCity cityName r w in
      (exists b, result out = Returned b) /\
      (forall data, r = Success data ->
         result out = Returned true /\
         cities (pricing (world out)) = cities (pricing w) ++ [data] /\
         List.length (cities (pricing (world out)))
           = S (List.length (cities (pricing w))) /\
         routes (pricing (world out)) = routes (pricing w) /\
         mumbaiLocal (pricing (world out)) = mumbaiLocal (pricing w)) /\
      (forall error, r = Failure error -> err_code error = Some "23505" ->
         result out = Returned false /\
         pricing (world out) = pricing w /\
         notices (world out) = notices w ++
           [ConsoleError "Error adding city:" error;
            ToastError "City already exists"]) /\
      (forall error, r = Failure error -> err_code error <> Some "23505" ->
         result out = Returned false /\
         pricing (world out) = pricing w /\
         notices (world out) = notices w ++
           [ConsoleError "Error adding city:" error;
            ToastError "Failed to add city"]))
  /\
  (forall (fromCity toCity : string) (p4 p6 : Q) (r : Response Route) (w : World),
      let out := addRoute fromCity toCity p4 p6 r w in
      (exists b, result out = Returned b) /\
      (forall data, r = Success data ->
         result out = Returned true /\
         routes (pricing (world out)) = routes (pricing w) ++ [data] /\
         List.length (routes (pricing (world out)))
           = S (List.length (routes (pricing w))) /\
         cities (pricing (world out)) = cities (pricing w) /\
         mumbaiLocal (pricing (world out)) = mumbaiLocal (pricing w)) /\
      (forall error, r = Failure error -> err_code error = Some "23505" ->
         result out = Returned false /\
         pricing (world out) = pricing w /\
         notices (world out) = notices w ++
           [ConsoleError "Error adding route:" error;
            ToastError "Route already exists"]) /\
      (forall error, r = Failure error -> err_code error <> Some "23505" ->
         result out = Returned false /\
         pricing (world out) = pricing w /\
         notices (world out) = notices w ++
           [ConsoleError "Error adding route:" error;
            ToastError "Failed to add route"])).
Proof.
  split; intros; subst out;
    (destruct r as [data | error];
     [rewrite ?addCity_success, ?addRoute_success
     | rewrite ?addCity_failure, ?addRoute_failure]);
    cbn [result world fst snd pricing notices cities routes mumbaiLocal];
    (split; [eauto |]); repeat split; intros; try discriminate;
    repeat match goal with
      | H : Success _ = Success _ |- _ => injection H as <-
      | H : Failure _ = Failure _ |- _ => injection H as <-
      | H : err_code _ = Some _ |- _ => apply code_is_iff in H; rewrite H
      | H : err_code _ <> Some _ |- _ => apply code_is_false_iff in H; rewrite H
      end;
    try reflexivity;
    rewrite length_app; simpl; lia.
Qed.

Lemma add_outcomes_witness :
  (result (addCity "Pune" (Failure conflict) stocked) = Returned false /\
   pricing (world (addCity "Pune" (Failure conflict) stocked)) = pricing stocked /\
   notices (world (addCity "Pune" (Failure conflict) stocked))
     = notices stocked ++ [ConsoleError "Error adding city:" conflict;
                           ToastError "City already exists"])
  /\ routes (pricing (world (addRoute "Pune" "Nashik" 2000 2800
                               (Success mumbai_nashik) stocked)))
     = routes (pricing stocked) ++ [mumbai_nashik].
Proof.
  split.
  - exact (proj1 (proj2 (proj2 (proj1 add_outcomes "Pune" (Failure conflict)
                                  stocked)))
             conflict eq_refl eq_refl).
  - exact (proj1 (proj2 (proj1 (proj2 (proj2 add_outcomes "Pune" "Nashik"
                                         2000 2800 (Success mumbai_nashik)
                                         stocked))
                           mumbai_nashik eq_refl))).
Defined.

(** C4. Each of the five mutations changes the pricing aggregate only when
    its remote call succeeded: after a remote error the aggregate is exactly
    what it was and the operation returns false.  [updatePricing] is the
    exception: it sends nothing to the remote store and overwrites the
    aggregate and the local-storage snapshot at once. *)
Theorem pricing_mutated_only_after_remote_success :
  (forall (m : Mutation) (w : World),
      remote_succeeded m = false ->
      pricing (world (perform m w)) = pricing w /\
      result (perform m w) = Returned false)
  /\ (forall (m : Mutation) (w : World),
      pricing (world (perform m w)) <> pricing w ->
      remote_succeeded m = true)
  /\ (forall (m : Mutation) (w : World),
      requests (world (perform m w)) = requests w ++ [request_of m])
  /\ (forall (newPricing : PricingConfig) (w : World),
      let out := updatePricing newPricing w in
      result out = Returned tt /\
      pricing (world out) = newPricing /\
      requests (world out) = requests w /\
      In ("Saffari_mumbai_pricing", newPricing) (localStorage (world out))).
Proof.
  split; [| split; [| split]].
  - intros m w E. destruct (perform_failure m w E) as (Hr & Hp & _). auto.
  - intros m w Hneq. destruct (remote_succeeded m) eqn:E; [reflexivity |].
    destruct (perform_failure m w E) as (_ & Hp & _). contradiction.
  - intros m w. destruct (remote_succeeded m) eqn:E.
    + now apply perform_success.
    + now apply perform_failure.
  - intros newPricing w out. subst out. destruct w as [p ls rq nt]. cbn.
    repeat split. now left.
Qed.

Lemma pricing_mutated_only_after_remote_success_witness :
  pricing (world (perform (DeleteRoute "r1" (Failure network_down)) stocked))
    = pricing stocked
  /\ result (perform (DeleteRoute "r1" (Failure network_down)) stocked)
    = Returned false.
Proof.
  exact (proj1 pricing_mutated_only_after_remote_success
           (DeleteRoute "r1" (Failure network_down)) stocked eq_refl).
Defined.

Lemma Forall2_map_pointwise {A B} (P : A -> B -> Prop) (f : A -> B) (l : list A) :
  (forall a, In a l -> P a (f a)) -> Forall2 P l (map f l).
Proof.
  induction l as [|a l IH]; intros H; simpl; constructor.
  - apply H. now left.
  - apply IH. intros a' Ha'. apply H. now right.
Qed.

(** As claimed, C5 fails: the row returned by the remote store replaces the
    cached one whole, so a returned row with another destination changes
    the destination of the cached route "r1". *)
Lemma updateRoute_keeps_cities_counterexample :
  ~ updateRoute_keeps_cities "r1" 2600 3600 relocated stocked.
Proof.
  intros (_ & _ & H). cbn in H.
  apply Forall2_cons_iff in H as [[_ H] _].
  destruct (H eq_refl) as (_ & _ & Hto). discriminate Hto.
Qed.

(** C5, amended. A successful [updateRoute] sends only the id and the two
    prices, returns true, keeps the local rates and the cities, keeps the
    length and order of the route list and every route with another id, and
    puts the row returned by the remote store in place of each route with
    that id.  The id and the two cities of such a route are therefore
    unchanged whenever the returned row carries them. *)
Theorem updateRoute_replaces_by_returned_row
    (routeId : string) (p4 p6 : Q) (data : Route) (w : World) :
  let out := updateRoute routeId p4 p6 (Success data) w in
  let after := pricing (world out) in
  result out = Returned true /\
  requests (world out) = requests w ++ [UpdateRoutePrices routeId p4 p6] /\
  mumbaiLocal after = mumbaiLocal (pricing w) /\
  cities after = cities (pricing w) /\
  Forall2 (fun before r =>
             (route_id before <> routeId -> r = before) /\
             (route_id before = routeId -> r = data))
          (routes (pricing w)) (routes after) /\
  ((forall before, In before (routes (pricing w)) ->
      route_id before = routeId ->
      route_id data = routeId /\
      from_city data = from_city before /\
      to_city data = to_city before) ->
   updateRoute_keeps_cities routeId p4 p6 data w).
Proof.
  intros out after. subst after out. unfold updateRoute_keeps_cities.
  rewrite updateRoute_success.
  cbn [result world fst snd pricing requests mumbaiLocal cities routes].
  repeat split.
  - apply Forall2_map_pointwise. intros r _.
    destruct (String.eqb_spec (route_id r) routeId); split; congruence.
  - apply Forall2_map_pointwise. intros r Hin.
    destruct (String.eqb_spec (route_id r) routeId) as [E | E];
      split; try congruence.
    intros _. now apply H.
Qed.

Lemma updateRoute_replaces_by_returned_row_witness :
  updateRoute_keeps_cities "r2" 3100 4300
    {| route_id := "r2"; from_city := "Mumbai"; to_city := "Nashik";
       price_4_seater := 3100; price_6_seater := 4300 |}
    stocked.
Proof.
  refine (proj2 (proj2 (proj2 (proj2 (proj2
            (updateRoute_replaces_by_returned_row "r2" 3100 4300
               {| route_id := "r2"; from_city := "Mumbai"; to_city := "Nashik";
                  price_4_seater := 3100; price_6_seater := 4300 |}
               stocked))))) _).
  intros before [<- | [<- | []]]; intros E; try discriminate E.
  repeat split; reflexivity.
Defined.

(** As claimed, C7 fails: when the cities select fails, the routes select is
    not even sent and the routes slice stays as it was. *)
Lemma load_slices_independent_counterexample :
  ~ load_slices_independent
      (Failure network_down) (Success (Some [mumbai_pune]))
      (Success (Some Booking.scenario_rates)) initial.
Proof.
  intros (_ & H & _). specialize (H _ eq_refl). cbn in H. discriminate H.
Qed.

(** C7, amended. [load] never throws.  The local-fare select is independent
    of the other two: its success sets the local rates, its failure is
    notified and leaves them as they were, and neither touches cities or
    routes.  The cities and routes selects succeed or fail together: when
    both succeed both slices are replaced, and when either fails the
    failure is notified and both slices stay as they were.  The cities and
    the local-fare selects are always sent; the routes select is sent
    exactly when the cities select succeeded. *)
Theorem load_partial_failure
    (citiesResponse : Response (option (list City)))
    (routesResponse : Response (option (list Route)))
    (fareResponse : Response (option LocalFare)) (w : World) :
  let out := load citiesResponse routesResponse fareResponse w in
  let after := pricing (world out) in
  result out = Returned tt /\
  (forall data, fareResponse = Success data -> mumbaiLocal after = data) /\
  (forall error, fareResponse = Failure error ->
     mumbaiLocal after = mumbaiLocal (pricing w) /\
     In (ToastError "Failed to load local fares") (notices (world out))) /\
  (forall cs rs, citiesResponse = Success cs -> routesResponse = Success rs ->
     cities after = or_empty cs /\ routes after = or_empty rs) /\
  (succeeded citiesResponse = false \/ succeeded routesResponse = false ->
     cities after = cities (pricing w) /\
     routes after = routes (pricing w) /\
     In (ToastError "Failed to load cities and routes") (notices (world out))) /\
  (exists sent,
     requests (world out) = requests w ++ sent /\
     In SelectCities sent /\
     In (SelectLocalFare "Mumbai Local") sent /\
     (In SelectRoutes sent <-> succeeded citiesResponse = true) /\
     (List.length sent <= 3)%nat).
Proof.
  intros out after. subst after out.
  destruct w as [p ls rq nt].
  assert (Hsent : exists sent,
            requests (world (load citiesResponse routesResponse fareResponse
                               {| pricing := p; localStorage := ls;
                                  requests := rq; notices := nt |}))
              = rq ++ sent /\
            In SelectCities sent /\
            In (SelectLocalFare "Mumbai Local") sent /\
            (In SelectRoutes sent <-> succeeded citiesResponse = true) /\
            (List.length sent <= 3)%nat).
  { destruct citiesResponse as [cs | ce].
    - exists [SelectCities; SelectRoutes; SelectLocalFare "Mumbai Local"].
      destruct routesResponse, fareResponse; cbn; rewrite <- ?app_assoc;
        (split; [reflexivity |]); intuition (try discriminate; auto).
    - exists [SelectCities; SelectLocalFare "Mumbai Local"].
      destruct fareResponse; cbn; rewrite <- ?app_assoc;
        (split; [reflexivity |]); intuition (try discriminate; auto). }
  destruct citiesResponse as [cs | ce], routesResponse as [rs | re],
    fareResponse as [fd | fe];
    (split; [reflexivity |]);
    (split; [| split; [| split; [| split; [| exact Hsent]]]]);
    cbn; intros;
    repeat match goal with
      | H : Success _ = Success _ |- _ => injection H as <-
      | H : _ \/ _ |- _ => destruct H
      end;
    try discriminate; try (repeat split; reflexivity);
    repeat split; try reflexivity;
    rewrite ?in_app_iff; simpl; tauto.
Qed.

Lemma load_partial_failure_witness :
  cities (pricing (world (load (Success (Some [pune])) (Failure network_down)
                            (Success (Some Booking.scenario_rates)) initial)))
    = cities (pricing initial)
  /\ routes (pricing (world (load (Success (Some [pune])) (Failure network_down)
                               (Success (Some Booking.scenario_rates)) initial)))
    = routes (pricing initial)
  /\ In (ToastError "Failed to load cities and routes")
       (notices (world (load (Success (Some [pune])) (Failure network_down)
                          (Success (Some Booking.scenario_rates)) initial))).
Proof.
  refine (proj1 (proj2 (proj2 (proj2 (proj2
            (load_partial_failure (Success (Some [pune])) (Failure network_down)
               (Success (Some Booking.scenario_rates)) initial))))) _).
  right. reflexivity.
Defined.

End AdminProofs.

(** ** Distance estimation *)

Module GeoProofs.
Import Control Geo GeoStatements.
Local Open Scope R_scope.

Lemma Math_roundR_eq (x : R) (k : Z) :
  IZR k - / 2 <= x < IZR k + / 2 -> Math_roundR x = k.
Proof. intros H. unfold Math_roundR. apply Zfloor_eq. lra. Qed.

Lemma Math_roundR_bounds (x : R) :
  x - / 2 < IZR (Math_roundR x) <= x + / 2.
Proof.
  unfold Math_roundR. pose proof (Zfloor_bound (x + / 2)). lra.
Qed.

Lemma Math_roundR_IZR (k : Z) : Math_roundR (IZR k) = k.
Proof. apply Math_roundR_eq. lra. Qed.

(** The two readings of [Math.round] agree on rationals. *)
Lemma Math_round_Q2R (q : Q) : Math_roundR (Q2R q) = Math_round q.
Proof.
  unfold Math_round. apply Math_roundR_eq.
  pose proof (Qfloor_le (q + (1 # 2))) as Hle.
  pose proof (Qlt_floor (q + (1 # 2))) as Hlt.
  apply Qle_Rle in Hle. apply Qlt_Rlt in Hlt.
  rewrite Q2R_plus in Hle, Hlt.
  assert (Hhalf : Q2R (1 # 2) = / 2) by (unfold Q2R; simpl; lra).
  assert (Hz : forall z, Q2R (inject_Z z) = IZR z)
    by (intros z; unfold Q2R; simpl; lra).
  rewrite Hhalf in Hle, Hlt. rewrite Hz in Hle, Hlt.
  rewrite plus_IZR in Hlt. lra.
Qed.

Lemma calculateStraightLineDistance_unfold (pickup drop : Coordinates) :
  calculateStraightLineDistance pickup drop
  = IZR (Math_roundR (6371 * central_angle pickup drop * 100)) / 100.
Proof. reflexivity. Qed.




(** [calculateRouteDetails] when the service delivered nothing. *)
Lemma calculateRouteDetails_fallback pickup drop o s :
  service_failed o ->
  exists error,
    calculateRouteDetails pickup drop o s
    = (Returned tt,
       {| distance := calculateStraightLineDistance pickup drop;
          duration :=
            IZR (Math_roundR (calculateStraightLineDistance pickup drop * 3));
          isCalculating := false;
          console := console s ++
            [("Error calculating route with Google Distance Matrix:", error)] |}).
Proof.
  intros Hf. destruct s as [d0 t0 c0 l0].
  destruct o as [error | ok status [result | error]]; simpl in Hf.
  - exists error. reflexivity.
  - destruct Hf as [-> | []]. eexists. reflexivity.
  - destruct ok; eexists; reflexivity.
Qed.

Lemma calculateRouteDetails_service (pickup drop : Coordinates) status result s :
  calculateRouteDetails pickup drop (FetchResponse true status (Success result)) s
  = (Returned tt,
     {| distance := result_distance result;
        duration := result_duration result;
        isCalculating := false;
        console := console s |}).
Proof. destruct s. reflexivity. Qed.

End GeoProofs.

(** ** Further properties of the fare estimator *)

Module FareExtras.
Import Booking Form.

Lemma Math_round_monotone (x y : Q) : x <= y -> (Math_round x <= Math_round y)%Z.
Proof.
  intros H. unfold Math_round. apply Qfloor_resp_le.
  now apply Qplus_le_l.
Qed.

Lemma getFare_inv (st : FormState) (fare : FareDetails) :
  getFare st = Some fare ->
  exists rates,
    mumbaiLocalRates st = Some rates /\
    is_zero (distance st) = false /\
    fare = fare_of (distance st)
             (rate_read rates (tripType (booking st)) (carType (booking st))).
Proof.
  intros Hg. destruct (is_zero (distance st)) eqn:Ez.
  - rewrite FareProofs.getFare_not_ready in Hg by now left. discriminate.
  - destruct (mumbaiLocalRates st) as [rates|] eqn:Er.
    + rewrite (FareProofs.getFare_ready st rates Ez Er) in Hg.
      injection Hg as <-. eauto.
    + rewrite FareProofs.getFare_not_ready in Hg by now right. discriminate.
Qed.

Lemma getFare_total_ge (st : FormState) (fare : FareDetails) :
  getFare st = Some fare -> (100 <= total fare)%Z.
Proof.
  intros Hg. apply getFare_inv in Hg as (rates & _ & _ & ->).
  unfold fare_of. cbn [total]. lia.
Qed.

Lemma getFare_None_iff (st : FormState) :
  getFare st = None <->
  is_zero (distance st) = true \/ mumbaiLocalRates st = None.
Proof.
  split; [| apply FareProofs.getFare_not_ready].
  intros Hg. destruct (is_zero (distance st)) eqn:Ez; [now left | right].
  destruct (mumbaiLocalRates st) as [rates|] eqn:Er; [| reflexivity].
  rewrite (FareProofs.getFare_ready st rates Ez Er) in Hg. discriminate.
Qed.

(** X2. Monotonicity. With the same booking and the same rates, and a rate
    that is not negative, a longer distance never gives a smaller total,
    and the rate applied is the same. *)
Theorem getFare_monotone_in_distance
    (st : FormState) (d1 d2 : Q) (f1 f2 : FareDetails) :
  getFare (with_distance d1 st) = Some f1 ->
  getFare (with_distance d2 st) = Some f2 ->
  d1 <= d2 ->
  0 <= ratePerKm f1 ->
  ratePerKm f2 = ratePerKm f1 /\ (total f1 <= total f2)%Z.
Proof.
  intros H1 H2 Hd Hr.
  apply getFare_inv in H1 as (r1 & Er1 & _ & ->).
  apply getFare_inv in H2 as (r2 & Er2 & _ & ->).
  cbn [with_distance mumbaiLocalRates] in Er1, Er2.
  rewrite Er1 in Er2. injection Er2 as <-.
  unfold fare_of in *.
  cbn [ratePerKm total with_distance distance booking] in *.
  split; [reflexivity |].
  apply Z.max_le_compat_l, Math_round_monotone.
  now apply Qmult_le_compat_r.
Qed.

Lemma getFare_monotone_in_distance_witness :
  (15 : Q) = 15 /\ (100 <= 600)%Z.
Proof.
  exact (getFare_monotone_in_distance
           (scenario_form "normal" "4-seater" 1) 2 40
           {| ratePerKm := 15; total := 100; isMinimumFare := true |}
           {| ratePerKm := 15; total := 600; isMinimumFare := false |}
           eq_refl eq_refl
           ltac:(unfold Qle; simpl; lia) ltac:(unfold Qle; simpl; lia)).
Defined.

(** X3. The readiness guard only excludes a distance equal to 0: a negative
    distance with loaded, non-negative rates is priced, at the minimum
    fare. *)
Theorem getFare_negative_distance (st : FormState) (rates : LocalFare) :
  distance st < 0 ->
  mumbaiLocalRates st = Some rates ->
  0 <= rate_read rates (tripType (booking st)) (carType (booking st)) ->
  getFare st =
    Some {| ratePerKm :=
              rate_read rates (tripType (booking st)) (carType (booking st));
            total := 100;
            isMinimumFare := true |}.
Proof.
  intros Hd Hr Hrate.
  assert (Hz : is_zero (distance st) = false).
  { apply FareProofs.is_zero_false_iff. intros E. rewrite E in Hd.
    now apply Qlt_irrefl in Hd. }
  rewrite (FareProofs.getFare_ready st rates Hz Hr). unfold fare_of.
  set (rate := rate_read _ _ _) in *.
  assert (Hneg : (Math_round (distance st * rate) <= 0)%Z).
  { change 0%Z with (Math_round 0).
    apply Math_round_monotone.
    apply Qle_trans with (0 * rate).
    - apply Qmult_le_compat_r; [now apply Qlt_le_weak | assumption].
    - rewrite Qmult_0_l. apply Qle_refl. }
  f_equal. f_equal.
  - lia.
  - apply Z.ltb_lt. lia.
Qed.

Lemma getFare_negative_distance_witness :
  getFare (scenario_form "normal" "6-seater" (-3))
  = Some {| ratePerKm := 18; total := 100; isMinimumFare := true |}.
Proof.
  exact (getFare_negative_distance (scenario_form "normal" "6-seater" (-3))
           scenario_rates eq_refl eq_refl ltac:(discriminate)).
Defined.

End FareExtras.

(** ** Further properties of form submission *)

Module SubmitExtras.
Import Control Booking Form.

Lemma Lang_Star_Class p s :
  Regex.Lang (Regex.Star (Regex.Class p)) s <-> Forall (fun c => p c = true) s.
Proof.
  split.
  - intros H. remember (Regex.Star (Regex.Class p)) as r eqn:Er.
    induction H; try discriminate; [constructor |].
    injection Er as ->.
    apply RegexProofs.Lang_Class_inv in H as (c & -> & Hp).
    simpl. constructor; auto.
  - induction 1 as [|c s Hp _ IH]; [constructor |].
    change (c :: s) with ([c] ++ s). constructor; [now constructor | exact IH].
Qed.

Lemma Lang_Plus_Class p s :
  Regex.Lang (Regex.Plus (Regex.Class p)) s <->
  s <> [] /\ Forall (fun c => p c = true) s.
Proof.
  unfold Regex.Plus. split.
  - intros H. apply RegexProofs.Lang_Seq_inv in H as (s1 & s2 & -> & H1 & H2).
    apply RegexProofs.Lang_Class_inv in H1 as (c & -> & Hp).
    apply Lang_Star_Class in H2. split; [discriminate | now constructor].
  - intros [Hne Hall]. destruct s as [|c s]; [contradiction |].
    inversion Hall; subst. change (c :: s) with ([c] ++ s).
    constructor; [now constructor | now apply Lang_Star_Class].
Qed.

Lemma Lang_is_char a s :
  Regex.Lang (Regex.Class (Regex.is_char a)) s <-> s = [a].
Proof.
  split.
  - intros H. apply RegexProofs.Lang_Class_inv in H as (c & -> & Hc).
    unfold Regex.is_char in Hc. apply Ascii.eqb_eq in Hc. now subst.
  - intros ->. constructor. unfold Regex.is_char. apply Ascii.eqb_refl.
Qed.

Lemma isValidEmail_shape (email : string) :
  isValidEmail email = true <-> email_shape email.
Proof.
  unfold isValidEmail, Regex.test, emailRegex, email_shape.
  rewrite RegexProofs.matches_spec. split.
  - intros H.
    apply RegexProofs.Lang_Seq_inv in H as (u & r1 & E1 & Hu & H).
    apply RegexProofs.Lang_Seq_inv in H as (a & r2 & -> & Ha & H).
    apply RegexProofs.Lang_Seq_inv in H as (v & r3 & -> & Hv & H).
    apply RegexProofs.Lang_Seq_inv in H as (d & w & -> & Hd & Hw).
    apply Lang_is_char in Ha as ->. apply Lang_is_char in Hd as ->.
    apply Lang_Plus_Class in Hu as [Hu1 Hu2].
    apply Lang_Plus_Class in Hv as [Hv1 Hv2].
    apply Lang_Plus_Class in Hw as [Hw1 Hw2].
    exists u, v, w. repeat split; auto.
    rewrite !Forall_app. auto.
  - intros (u & v & w & -> & Hu & Hv & Hw & Hall).
    rewrite !Forall_app in Hall. destruct Hall as (Hu2 & Hv2 & Hw2).
    repeat (constructor; try (apply Lang_Plus_Class; now split);
            try (apply Lang_is_char; reflexivity)).
Qed.

Lemma email_shape_one_at (email : string) :
  email_shape email ->
  count_occ ascii_dec (list_ascii_of_string email) "@"%char = 1%nat /\
  (5 <= String.length email)%nat /\
  Forall (fun c => Regex.space c = false) (list_ascii_of_string email).
Proof.
  intros (u & v & w & E & Hu & Hv & Hw & Hall).
  rewrite <- RegexProofs.length_list_ascii_of_string, E.
  rewrite !Forall_app in Hall. destruct Hall as (Hu2 & Hv2 & Hw2).
  assert (Hno : forall l, Forall (fun c => Regex.not_space_at c = true) l ->
                count_occ ascii_dec l "@"%char = 0%nat /\
                Forall (fun c => Regex.space c = false) l).
  { induction 1 as [|c l Hc _ [IH1 IH2]]; [split; [reflexivity | constructor] |].
    unfold Regex.not_space_at in Hc.
    apply andb_true_iff in Hc as [Hs Ha].
    apply negb_true_iff in Hs. apply negb_true_iff in Ha.
    unfold Regex.is_char in Ha. apply Ascii.eqb_neq in Ha.
    split; [| now constructor].
    rewrite count_occ_cons_neq by congruence. exact IH1. }
  destruct (Hno u Hu2) as [Cu Su], (Hno v Hv2) as [Cv Sv],
    (Hno w Hw2) as [Cw Sw].
  repeat split.
  - rewrite !count_occ_app, Cu, Cv, Cw. reflexivity.
  - rewrite !length_app. simpl.
    destruct u; [contradiction |]. destruct v; [contradiction |].
    destruct w; [contradiction |]. simpl. lia.
  - rewrite !Forall_app. repeat split; auto; repeat constructor.
Qed.

(** X4. [isValidEmail] accepts exactly the strings of the shape
    local@domain.suffix whose three parts are non-empty and contain neither
    white space nor "@". *)
Theorem isValidEmail_iff_shape (email : string) :
  isValidEmail email = true <-> email_shape email.
Proof. apply isValidEmail_shape. Qed.

Lemma isValidEmail_iff_shape_witness : email_shape "a@b.c".
Proof. exact (proj1 (isValidEmail_iff_shape "a@b.c") eq_refl). Defined.

(** X5. An accepted address has exactly one "@", at least five characters
    and no white space. *)
Theorem isValidEmail_one_at (email : string) :
  isValidEmail email = true ->
  count_occ ascii_dec (list_ascii_of_string email) "@"%char = 1%nat /\
  (5 <= String.length email)%nat /\
  Forall (fun c => Regex.space c = false) (list_ascii_of_string email).
Proof. intros H. now apply email_shape_one_at, isValidEmail_shape. Qed.

Lemma isValidEmail_one_at_witness :
  count_occ ascii_dec (list_ascii_of_string "asha@example.com") "@"%char = 1%nat /\
  (5 <= String.length "asha@example.com")%nat /\
  Forall (fun c => Regex.space c = false)
    (list_ascii_of_string "asha@example.com").
Proof.
  exact (isValidEmail_one_at "asha@example.com" eq_refl).
Defined.

Lemma handleSubmit_cases (st : FormState) (saved : Response unit)
    (trace : list Event) :
  (~ passes_checks st /\
   exists text, handleSubmit st saved trace
                = (Returned tt, trace ++ [ToastError text]))
  \/ (passes_checks st /\
      handleSubmit st saved trace
      = (Returned tt, trace ++ handoff st ++ after_save saved)).
Proof.
  unfold passes_checks.
  destruct (SubmitProofs.handleSubmit_rejects st saved trace)
    as (H1 & H2 & H3 & H4).
  destruct (SubmitProofs.missing_required_dec (booking st)) as [Hm | Hm];
    [left; split; [tauto | eauto] |].
  destruct (SubmitProofs.ten_digits_dec (customerPhone (booking st)))
    as [Hp | Hp]; [| left; split; [tauto | eauto]].
  destruct (SubmitProofs.malformed_email_dec (customerEmail (booking st)))
    as [He | He]; [left; split; [tauto | eauto] |].
  destruct (is_zero (distance st)) eqn:Ez.
  - apply FareProofs.is_zero_true_iff in Ez. left. split; [tauto | eauto].
  - apply FareProofs.is_zero_false_iff in Ez. right. split; [tauto |].
    now apply SubmitProofs.handleSubmit_accepts.
Qed.

Lemma inserted_app t1 t2 : inserted (t1 ++ t2) = inserted t1 ++ inserted t2.
Proof. apply flat_map_app. Qed.

Lemma opened_app t1 t2 : opened (t1 ++ t2) = opened t1 ++ opened t2.
Proof. apply flat_map_app. Qed.

Lemma after_save_silent saved :
  inserted (after_save saved) = [] /\ opened (after_save saved) = [].
Proof. destruct saved; split; reflexivity. Qed.

Lemma estimated_total_cases (st : FormState) :
  estimated_total st = 0%Z \/ (100 <= estimated_total st)%Z.
Proof.
  unfold estimated_total. destruct (getFare st) as [fare|] eqn:E; [| now left].
  right. now apply (FareExtras.getFare_total_ge st fare).
Qed.

(** X6. What gets persisted. One submission inserts at most one booking row
    and opens the messaging link exactly as often as it inserts.  An
    inserted row is the row of the form: its name, locations, date and time
    are non-empty, its phone is ten digits, its email is absent or
    well-formed, its price is 0 or at least 100, and it agrees with the
    price in the message. *)
Theorem inserted_rows_are_validated
    (st : FormState) (saved : Response unit) :
  let trace := world (handleSubmit st saved []) in
  (List.length (inserted trace) <= 1)%nat /\
  List.length (opened trace) = List.length (inserted trace) /\
  forall row, In row (inserted trace) ->
    row = bookingRow st /\
    customer_name row <> "" /\ from_location row <> "" /\
    to_location row <> "" /\ travel_date row <> "" /\ travel_time row <> "" /\
    ten_digits (customer_phone row) /\
    (customer_email row = None \/
     exists e, customer_email row = Some e /\ isValidEmail e = true) /\
    (estimated_price row = 0%Z \/ (100 <= estimated_price row)%Z) /\
    opened trace = [buildMessage st] /\
    msg_estimatedPrice (buildMessage st) = estimated_price row.
Proof.
  intros trace. subst trace.
  destruct (handleSubmit_cases st saved []) as [[_ [text ->]] | [Hok ->]];
    unfold world; cbn [snd app].
  - cbn. split; [lia | split; [reflexivity | intros row []]].
  - destruct (after_save_silent saved) as [Ei Eo].
    rewrite inserted_app, opened_app, Ei, Eo. cbn.
    split; [lia | split; [reflexivity |]]. intros row [<- | []].
    destruct Hok as (Hm & Hp & He & _). unfold missing_required in Hm.
    cbn. repeat split; try tauto.
    + apply Hp.
    + apply Hp.
    + destruct (customerEmail (booking st)) as [|c e] eqn:Em; [now left |].
      right. eexists. split; [reflexivity |].
      destruct (isValidEmail (String c e)) eqn:Ev; [reflexivity |].
      exfalso. apply He. split; [discriminate | exact Ev].
    + apply estimated_total_cases.
Qed.

Lemma inserted_rows_are_validated_witness :
  ten_digits (customer_phone (bookingRow valid_form)) /\
  (estimated_price (bookingRow valid_form) = 0%Z \/
   (100 <= estimated_price (bookingRow valid_form))%Z).
Proof.
  destruct (proj2 (proj2 (inserted_rows_are_validated valid_form (Success tt)))
              (bookingRow valid_form) (or_introl eq_refl))
    as (_ & _ & _ & _ & _ & _ & Hphone & _ & Hprice & _).
  exact (conj Hphone Hprice).
Defined.

(** X7. The handler does not look at the rates: a submission that passes
    the four checks while the rates are not loaded is inserted and handed
    off all the same, with price 0 in the row and in the message. *)
Theorem handoff_without_rates (st : FormState) (saved : Response unit) :
  passes_checks st ->
  mumbaiLocalRates st = None ->
  let trace := world (handleSubmit st saved []) in
  inserted trace = [bookingRow st] /\
  opened trace = [buildMessage st] /\
  estimated_price (bookingRow st) = 0%Z /\
  msg_estimatedPrice (buildMessage st) = 0%Z.
Proof.
  intros Hok Hr trace. subst trace.
  destruct Hok as (Hm & Hp & He & Hd).
  rewrite (SubmitProofs.handleSubmit_accepts st saved [] Hm Hp He Hd).
  unfold world. cbn [snd app].
  destruct (after_save_silent saved) as [Ei Eo].
  rewrite inserted_app, opened_app, Ei, Eo.
  assert (Hg : getFare st = None)
    by (apply FareProofs.getFare_not_ready; now right).
  cbn. unfold estimated_total. rewrite Hg. auto.
Qed.

Lemma handoff_without_rates_witness :
  inserted (world (handleSubmit (without_rates valid_form) (Success tt) []))
    = [bookingRow (without_rates valid_form)] /\
  opened (world (handleSubmit (without_rates valid_form) (Success tt) []))
    = [buildMessage (without_rates valid_form)] /\
  estimated_price (bookingRow (without_rates valid_form)) = 0%Z /\
  msg_estimatedPrice (buildMessage (without_rates valid_form)) = 0%Z.
Proof.
  refine (handoff_without_rates (without_rates valid_form) (Success tt) _ eq_refl).
  unfold passes_checks. repeat split.
  - unfold missing_required. simpl. intuition discriminate.
  - simpl. repeat constructor.
  - intros [_ H]. vm_compute in H. discriminate.
  - intros H. discriminate.
Defined.

End SubmitExtras.

(** ** Further properties of distance estimation *)

Module GeoExtras.
Import Control Geo GeoStatements.
Local Open Scope R_scope.

Lemma haversine_a_sym (p q : Coordinates) : haversine_a p q = haversine_a q p.
Proof.
  unfold haversine_a.
  replace ((lat q - lat p) * PI / 180 / 2)
    with (- ((lat p - lat q) * PI / 180 / 2)) by lra.
  replace ((lng q - lng p) * PI / 180 / 2)
    with (- ((lng p - lng q) * PI / 180 / 2)) by lra.
  rewrite !sin_neg. ring.
Qed.

(** X10. The fallback distance is symmetric: swapping pickup and drop gives
    the same number. *)
Theorem calculateStraightLineDistance_symmetric (pickup drop : Coordinates) :
  calculateStraightLineDistance pickup drop
  = calculateStraightLineDistance drop pickup.
Proof.
  rewrite !GeoProofs.calculateStraightLineDistance_unfold.
  unfold central_angle. now rewrite (haversine_a_sym pickup drop).
Qed.




(** X13. [calculateRouteDetails] never throws and always ends with
    [isCalculating] false.  A readable success response is stored as it is,
    without rounding and without console output; in every other case the
    fallback is stored and exactly one console entry is added. *)
Theorem calculateRouteDetails_settles
    (pickup drop : Coordinates) (o : FetchOutcome) (s : RouteState) :
  let out := calculateRouteDetails pickup drop o s in
  result out = Returned tt /\
  isCalculating (world out) = false /\
  (forall status data, o = FetchResponse true status (Success data) ->
     distance (world out) = result_distance data /\
     duration (world out) = result_duration data /\
     console (world out) = console s) /\
  ((forall status data, o <> FetchResponse true status (Success data)) ->
     distance (world out) = calculateStraightLineDistance pickup drop /\
     List.length (console (world out)) = S (List.length (console s))).
Proof.
  intros out. subst out.
  destruct o as [error | [|] status [data | error]].
  2: { rewrite GeoProofs.calculateRouteDetails_service.
       unfold result, world. cbn.
       split; [reflexivity | split; [reflexivity | split]].
       - intros status' data' E. injection E as _ <-. auto.
       - intros H. exfalso. now apply (H status data). }
  all: match goal with
       | |- context [calculateRouteDetails _ _ ?o _] =>
           let H := fresh in
           assert (H : service_failed o) by (simpl; auto);
           destruct (GeoProofs.calculateRouteDetails_fallback pickup drop o s H)
             as [e ->]
       end;
    unfold result, world; cbn; repeat split; intros; try discriminate;
    rewrite length_app; simpl; lia.
Qed.

End GeoExtras.

(** ** Further properties of the pricing store *)

Module StoreExtras.
Import Control Admin Store.

Lemma filter_id_absent {A} (key : A -> string) (i : string) (l : list A) :
  (forall x, In x l -> key x <> i) ->
  filter (fun x => negb (key x =? i)) l = l.
Proof.
  intros H. induction l as [|x l IH]; [reflexivity |]. simpl.
  destruct (String.eqb_spec (key x) i) as [E | _].
  - exfalso. apply (H x); [now left | exact E].
  - simpl. f_equal. apply IH. intros y Hy. apply H. now right.
Qed.

Lemma filter_id_In {A} (key : A -> string) (i : string) (l : list A) (x : A) :
  In x (filter (fun x => negb (key x =? i)) l) <-> In x l /\ key x <> i.
Proof.
  rewrite filter_In, negb_true_iff, String.eqb_neq. reflexivity.
Qed.

(** X14. A successful [removeCity] removes every cached city with that id
    and nothing else: the other cities keep their order, and the routes and
    the local rates are untouched, also the routes that start or end in the
    removed city.  Removing an id that is not cached reports success and
    changes nothing. *)
Theorem removeCity_removes_only_that_city (cityId : string) (w : World) :
  let after := pricing (world (removeCity cityId (Success tt) w)) in
  (forall c, In c (cities after) <-> In c (cities (pricing w)) /\ city_id c <> cityId) /\
  cities after = filter (fun c => negb (city_id c =? cityId)) (cities (pricing w)) /\
  routes after = routes (pricing w) /\
  mumbaiLocal after = mumbaiLocal (pricing w) /\
  ((forall c, In c (cities (pricing w)) -> city_id c <> cityId) ->
     after = pricing w /\
     result (removeCity cityId (Success tt) w) = Returned true).
Proof.
  intros after. subst after. rewrite AdminProofs.removeCity_success.
  unfold world, result. cbn [fst snd pricing cities routes mumbaiLocal].
  split; [intros c; apply filter_id_In |].
  repeat split.
  rewrite (filter_id_absent city_id cityId _ H). now destruct (pricing w).
Qed.

Lemma removeCity_removes_only_that_city_witness :
  pricing (world (removeCity "c9" (Success tt) stocked)) = pricing stocked /\
  result (removeCity "c9" (Success tt) stocked) = Returned true.
Proof.
  refine (proj2 (proj2 (proj2 (proj2
            (removeCity_removes_only_that_city "c9" stocked)))) _).
  intros c [<- | []]. discriminate.
Defined.

(** X15. A successful [deleteRoute] removes every cached route with that id
    and nothing else; the cities and the local rates are untouched.
    Deleting an id that is not cached reports success and changes
    nothing. *)
Theorem deleteRoute_removes_only_that_route (routeId : string) (w : World) :
  let after := pricing (world (deleteRoute routeId (Success tt) w)) in
  (forall r, In r (routes after) <-> In r (routes (pricing w)) /\ route_id r <> routeId) /\
  routes after = filter (fun r => negb (route_id r =? routeId)) (routes (pricing w)) /\
  cities after = cities (pricing w) /\
  mumbaiLocal after = mumbaiLocal (pricing w) /\
  ((forall r, In r (routes (pricing w)) -> route_id r <> routeId) ->
     after = pricing w /\
     result (deleteRoute routeId (Success tt) w) = Returned true).
Proof.
  intros after. subst after. rewrite AdminProofs.deleteRoute_success.
  unfold world, result. cbn [fst snd pricing cities routes mumbaiLocal].
  split; [intros r; apply filter_id_In |].
  repeat split.
  rewrite (filter_id_absent route_id routeId _ H). now destruct (pricing w).
Qed.

Lemma deleteRoute_removes_only_that_route_witness :
  pricing (world (deleteRoute "r9" (Success tt) stocked)) = pricing stocked /\
  result (deleteRoute "r9" (Success tt) stocked) = Returned true.
Proof.
  refine (proj2 (proj2 (proj2 (proj2
            (deleteRoute_removes_only_that_route "r9" stocked)))) _).
  intros r [<- | [<- | []]]; discriminate.
Defined.

Lemma filter_app_fresh {A} (key : A -> string) (l : list A) (x : A) :
  (forall y, In y l -> key y <> key x) ->
  filter (fun y => negb (key y =? key x)) (l ++ [x]) = l.
Proof.
  intros H. rewrite filter_app. simpl. rewrite String.eqb_refl. simpl.
  rewrite app_nil_r. now apply filter_id_absent.
Qed.

(** X16. Insert, then delete. Adding a city (or a route) whose returned id is
    not yet cached and then removing that id gives back the pricing
    aggregate from before the insertion. *)
Theorem add_then_remove_restores (w : World) :
  (forall cityName (data : City),
      (forall c, In c (cities (pricing w)) -> city_id c <> city_id data) ->
      pricing (world (removeCity (city_id data) (Success tt)
                        (world (addCity cityName (Success data) w))))
      = pricing w)
  /\
  (forall fromCity toCity p4 p6 (data : Route),
      (forall r, In r (routes (pricing w)) -> route_id r <> route_id data) ->
      pricing (world (deleteRoute (route_id data) (Success tt)
                        (world (addRoute fromCity toCity p4 p6 (Success data) w))))
      = pricing w).
Proof.
  split.
  - intros cityName data Hfresh.
    rewrite AdminProofs.addCity_success, AdminProofs.removeCity_success.
    unfold world. cbn [snd pricing cities routes mumbaiLocal].
    rewrite (filter_app_fresh city_id _ data Hfresh). now destruct (pricing w).
  - intros f t p4 p6 data Hfresh.
    rewrite AdminProofs.addRoute_success, AdminProofs.deleteRoute_success.
    unfold world. cbn [snd pricing cities routes mumbaiLocal].
    rewrite (filter_app_fresh route_id _ data Hfresh). now destruct (pricing w).
Qed.

Lemma add_then_remove_restores_witness :
  pricing (world (removeCity (city_id nashik) (Success tt)
                    (world (addCity "Nashik" (Success nashik) stocked))))
  = pricing stocked.
Proof.
  refine (proj1 (add_then_remove_restores stocked) "Nashik" nashik _).
  intros c [<- | []]. discriminate.
Defined.

Lemma map_replace_absent (routeId : string) (data : Route) (l : list Route) :
  (forall r, In r l -> route_id r <> routeId) ->
  map (fun r => if route_id r =? routeId then data else r) l = l.
Proof.
  intros H. induction l as [|r l IH]; [reflexivity |]. simpl.
  destruct (String.eqb_spec (route_id r) routeId) as [E | _].
  - exfalso. apply (H r); [now left | exact E].
  - f_equal. apply IH. intros y Hy. apply H. now right.
Qed.

(** X17. Updating a route that is not cached. When no cached route has the
    id, a successful [updateRoute] leaves the pricing aggregate exactly as
    it was: the returned row is not added; the operation still reports
    success. *)
Theorem updateRoute_uncached_id
    (routeId : string) (p4 p6 : Q) (data : Route) (w : World) :
  (forall r, In r (routes (pricing w)) -> route_id r <> routeId) ->
  let out := updateRoute routeId p4 p6 (Success data) w in
  pricing (world out) = pricing w /\
  result out = Returned true /\
  notices (world out) = notices w ++ [ToastSuccess "Route updated successfully"].
Proof.
  intros H out. subst out. rewrite AdminProofs.updateRoute_success.
  unfold world, result. cbn [fst snd pricing notices].
  rewrite (map_replace_absent routeId data _ H).
  repeat split. now destruct (pricing w).
Qed.

Lemma updateRoute_uncached_id_witness :
  pricing (world (updateRoute "r9" 1 2 (Success AdminStatements.relocated) stocked))
    = pricing stocked /\
  result (updateRoute "r9" 1 2 (Success AdminStatements.relocated) stocked)
    = Returned true /\
  notices (world (updateRoute "r9" 1 2 (Success AdminStatements.relocated) stocked))
    = notices stocked ++ [ToastSuccess "Route updated successfully"].
Proof.
  refine (updateRoute_uncached_id "r9" 1 2 AdminStatements.relocated stocked _).
  intros r [<- | [<- | []]]; discriminate.
Defined.

(** X18. [updateRoute] is idempotent: when the same successful update
    settles twice, the pricing aggregate after the second is the one after
    the first. *)
Theorem updateRoute_idempotent
    (routeId : string) (p4 p6 : Q) (data : Route) (w : World) :
  let once := world (updateRoute routeId p4 p6 (Success data) w) in
  pricing (world (updateRoute routeId p4 p6 (Success data) once))
  = pricing once.
Proof.
  intros once. subst once. rewrite !AdminProofs.updateRoute_success.
  unfold world. cbn [snd pricing cities routes mumbaiLocal].
  f_equal. rewrite map_map. apply map_ext. intros r.
  destruct (String.eqb_spec (route_id r) routeId) as [E | E].
  - now destruct (route_id data =? routeId).
  - apply String.eqb_neq in E. now rewrite E.
Qed.

(** Dropping the entries with one id keeps the remaining ids distinct. *)
Lemma ids_distinct_after_drop {A} (key : A -> string) (i : string) (l : list A) :
  NoDup (map key l) ->
  NoDup (map key (filter (fun x => negb (key x =? i)) l)).
Proof.
  induction l as [|x l IH]; intros Hnd; [constructor |].
  apply NoDup_cons_iff in Hnd as [Hfresh Hrest]. cbn [filter].
  destruct (negb (key x =? i)); [| exact (IH Hrest)].
  cbn [map]. apply NoDup_cons_iff. split; [| exact (IH Hrest)].
  intros Hin. apply Hfresh.
  apply in_map_iff in Hin as (y & Ey & Hy).
  apply filter_id_In in Hy as [Hy _].
  rewrite <- Ey. now apply in_map.
Qed.

Lemma NoDup_map_snoc {A B} (f : A -> B) (l : list A) (x : A) :
  NoDup (map f l) -> ~ In (f x) (map f l) -> NoDup (map f (l ++ [x])).
Proof.
  intros Hnd Hnin. rewrite map_app. simpl.
  apply NoDup_app; [exact Hnd | repeat constructor; intros [] |].
  intros y Hy [<- | []]. contradiction.
Qed.

Lemma map_id_replace (routeId : string) (data : Route) (l : list Route) :
  route_id data = routeId ->
  map route_id (map (fun r => if route_id r =? routeId then data else r) l)
  = map route_id l.
Proof.
  intros E. rewrite map_map. apply map_ext. intros r.
  destruct (String.eqb_spec (route_id r) routeId); congruence.
Qed.

(** X19. Unique ids. If no two cached cities and no two cached routes share
    an id, the same holds after any of the five mutations, whatever the
    remote store answered, provided an inserted row comes back with an id
    that is not cached yet and an updated row with the id asked for. *)
Theorem mutations_keep_ids_unique (m : Mutation) (w : World) :
  ids_unique (pricing w) ->
  returned_id_ok m (pricing w) ->
  ids_unique (pricing (world (perform m w))).
Proof.
  intros [Hc Hr] Hok.
  destruct (remote_succeeded m) eqn:Es.
  2:{ destruct (AdminProofs.perform_failure m w Es) as (_ & -> & _).
      now split. }
  destruct m as [n r | i r | f t p4 p6 r | i p4 p6 r | i r];
    destruct r as [data | error]; try discriminate Es;
    try destruct data; cbn [perform];
    rewrite ?AdminProofs.addCity_success, ?AdminProofs.removeCity_success,
      ?AdminProofs.addRoute_success, ?AdminProofs.updateRoute_success,
      ?AdminProofs.deleteRoute_success;
    unfold world, ids_unique; cbn [snd pricing cities routes];
    (split; [try exact Hc | try exact Hr]).
  - now apply NoDup_map_snoc.
  - now apply ids_distinct_after_drop.
  - now apply NoDup_map_snoc.
  - simpl in Hok. now rewrite map_id_replace.
  - now apply ids_distinct_after_drop.
Qed.

Lemma mutations_keep_ids_unique_witness :
  ids_unique (pricing (world (perform
    (UpdateRoute "r1" 2600 3600 (Success AdminStatements.relocated)) stocked))).
Proof.
  apply (mutations_keep_ids_unique
           (UpdateRoute "r1" 2600 3600 (Success AdminStatements.relocated))
           stocked).
  - split; simpl; repeat constructor; simpl; intuition discriminate.
  - reflexivity.
Defined.

(** X20. The two fetches of the mount effect touch disjoint slices: in
    whichever order they settle, the pricing aggregate and the requests
    sent to each table are the same, and neither writes to local storage. *)
Theorem fetch_order_irrelevant
    (citiesResponse : Response (option (list City)))
    (routesResponse : Response (option (list Route)))
    (fareResponse : Response (option LocalFare)) (w : World) :
  let first_cities :=
    world (fetchLocalFares fareResponse
             (world (fetchCitiesAndRoutes citiesResponse routesResponse w))) in
  let first_fares :=
    world (fetchCitiesAndRoutes citiesResponse routesResponse
             (world (fetchLocalFares fareResponse w))) in
  pricing first_cities = pricing first_fares /\
  first_cities = world (load citiesResponse routesResponse fareResponse w) /\
  localStorage first_cities = localStorage w /\
  localStorage first_fares = localStorage w /\
  (forall req, In req (requests first_cities) <-> In req (requests first_fares)).
Proof.
  destruct w as [p ls rq nt].
  destruct citiesResponse as [cs | ce], routesResponse as [rs | re],
    fareResponse as [fd | fe]; cbn;
    (repeat split; try reflexivity);
    intros Hin; rewrite ?in_app_iff in *; simpl in *; tauto.
Qed.

(** X21. A load in which all three selects succeed replaces the whole
    aggregate by what was fetched, whatever was in memory before; in
    particular it discards what [updatePricing] had put there, while the
    local-storage snapshot written by [updatePricing] stays. *)
Theorem successful_load_overwrites
    (cs : option (list City)) (rs : option (list Route))
    (fd : option LocalFare) (w : World) :
  let fetched :=
    {| mumbaiLocal := fd; cities := or_empty cs; routes := or_empty rs |} in
  pricing (world (load (Success cs) (Success rs) (Success fd) w)) = fetched /\
  notices (world (load (Success cs) (Success rs) (Success fd) w)) = notices w /\
  (forall local,
     let w' := world (load (Success cs) (Success rs) (Success fd)
                        (world (updatePricing local w))) in
     pricing w' = fetched /\
     getItem "Saffari_mumbai_pricing" (localStorage w') = Some local).
Proof.
  destruct w as [p ls rq nt]. cbn. repeat split.
Qed.

(** X22. One toast per operation. Each of the five mutations appends to the
    notices, shows exactly one toast, and that toast is a success toast
    exactly when the operation returns true; a console entry is written
    exactly when the remote call failed.  Nothing is written to local
    storage. *)
Theorem mutation_shows_one_toast (m : Mutation) (w : World) :
  exists added toast,
    notices (world (perform m w)) = notices w ++ added /\
    toasts added = [toast] /\
    (is_success_toast toast = true <-> result (perform m w) = Returned true) /\
    (List.length added = 1%nat <-> remote_succeeded m = true) /\
    localStorage (world (perform m w)) = localStorage w.
Proof.
  destruct w as [p ls rq nt].
  destruct m as [n r | i r | f t p4 p6 r | i p4 p6 r | i r];
    destruct r as [data | error]; cbn [perform remote_succeeded succeeded].
  all: try (eexists [_], _; cbn; repeat split; congruence).
  all: try (destruct (code_is error "23505") eqn:Ec).
  all: eexists [_; _], _; cbn; rewrite ?Ec; cbn; rewrite <- ?app_assoc;
    repeat split; try discriminate; congruence.
Qed.

Lemma updatePricing_run (p : PricingConfig) (w : World) :
  updatePricing p w
  = (Returned tt,
     {| pricing := p;
        localStorage :=
          ("Saffari_mumbai_pricing", p)
          :: filter (fun kv => negb (fst kv =? "Saffari_mumbai_pricing"))
               (localStorage w);
        requests := requests w;
        notices := notices w |}).
Proof. reflexivity. Qed.

Section Storage.
Variable k : string.
Let others (l : list (string * PricingConfig)) :=
  filter (fun kv => negb (fst kv =? k)) l.

Lemma others_twice l : others (others l) = others l.
Proof.
  unfold others. induction l as [|x l IH]; [reflexivity |]. simpl.
  destruct (negb (fst x =? k)) eqn:E; simpl; [rewrite E; f_equal |]; exact IH.
Qed.

Lemma others_count l : count_occ string_dec (map fst (others l)) k = 0%nat.
Proof.
  unfold others. induction l as [|x l IH]; [reflexivity |]. simpl.
  destruct (String.eqb_spec (fst x) k) as [E | E]; simpl; [exact IH |].
  destruct (string_dec (fst x) k); [contradiction | exact IH].
Qed.

Lemma others_getItem key l : key <> k -> getItem key (others l) = getItem key l.
Proof.
  intros Hk. unfold getItem, others.
  induction l as [|x l IH]; [reflexivity |]. simpl.
  destruct (String.eqb_spec (fst x) k) as [E | E]; simpl.
  - destruct (String.eqb_spec (fst x) key) as [E' | _]; [congruence | exact IH].
  - destruct (fst x =? key); [reflexivity | exact IH].
Qed.
End Storage.

(** X23. The local-storage snapshot. [updatePricing] replaces the snapshot
    stored under its key instead of adding to it: after two calls the key
    reads back the second value and occurs once, and the entries under
    other keys are the ones from before. *)
Theorem updatePricing_replaces_snapshot (p1 p2 : PricingConfig) (w : World) :
  let w' := world (updatePricing p2 (world (updatePricing p1 w))) in
  pricing w' = p2 /\
  getItem "Saffari_mumbai_pricing" (localStorage w') = Some p2 /\
  count_occ string_dec (map fst (localStorage w')) "Saffari_mumbai_pricing" = 1%nat /\
  (forall key, key <> "Saffari_mumbai_pricing" ->
     getItem key (localStorage w') = getItem key (localStorage w)).
Proof.
  intros w'. subst w'. rewrite !updatePricing_run.
  unfold world. cbn [snd pricing localStorage].
  set (k := "Saffari_mumbai_pricing").
  split; [reflexivity | split; [reflexivity | split]].
  - cbn [map fst]. rewrite count_occ_cons_eq by reflexivity. f_equal.
    cbn [filter fst]. rewrite String.eqb_refl. cbn [negb].
    rewrite others_twice. apply others_count.
  - intros key Hk. unfold getItem at 1. cbn [find fst].
    destruct (String.eqb_spec k key) as [E | _]; [congruence |].
    cbn [filter fst]. rewrite String.eqb_refl. cbn [negb].
    rewrite others_twice. fold (getItem key
      (filter (fun kv : string * PricingConfig => negb (fst kv =? k))
         (localStorage w))).
    now apply others_getItem.
Qed.

Lemma updatePricing_replaces_snapshot_witness :
  getItem "other" (localStorage (world (updatePricing defaultPricing
                     (world (updatePricing (pricing stocked) stocked)))))
  = getItem "other" (localStorage stocked).
Proof.
  refine (proj2 (proj2 (proj2 (updatePricing_replaces_snapshot
            (pricing stocked) defaultPricing stocked))) "other" _).
  discriminate.
Defined.

End StoreExtras.

(** ** The admin session *)

Module SessionExtras.
Import Session.

(** X24. The admin session. [login] succeeds exactly with the pair
    "admin" / "admin123"; a failed login answers "Invalid admin
    credentials" and changes neither the session nor local storage.  After
    a successful login a reload restores the same admin from local storage;
    after [logout] a reload restores none. *)
Theorem session_round_trip (user password : string) (s : SessionState) :
  (success (fst (login user password s)) = true <->
     user = "admin" /\ password = "admin123") /\
  (success (fst (login user password s)) = false ->
     snd (login user password s) = s /\
     error (fst (login user password s)) = Some "Invalid admin credentials") /\
  (success (fst (login user password s)) = true ->
     let s' := snd (login user password s) in
     admin s' <> None /\
     admin (mount (savedAdmin s')) = admin s' /\
     admin (mount (savedAdmin (logout s'))) = None).
Proof.
  unfold login.
  destruct (String.eqb_spec user "admin") as [Eu | Eu];
    destruct (String.eqb_spec password "admin123") as [Ep | Ep]; cbn;
    repeat split; intros; try discriminate; try tauto; try congruence.
Qed.

Lemma session_round_trip_witness :
  admin (snd (login "admin" "admin123" (mount None))) <> None /\
  admin (mount (savedAdmin (snd (login "admin" "admin123" (mount None)))))
    = admin (snd (login "admin" "admin123" (mount None))) /\
  admin (mount (savedAdmin (logout (snd (login "admin" "admin123" (mount None))))))
    = None.
Proof.
  exact (proj2 (proj2 (session_round_trip "admin" "admin123" (mount None)))
           eq_refl).
Defined.

End SessionExtras.

(** ** The earlier provider *)

Module EarlierExtras.
Import Control Earlier.

(** X25. In the earlier provider a stored snapshot shadows the remote store.
    After [updatePricing], a reload installs the snapshot and sends no
    request at all; a city added after the snapshot was written is cached
    until the reload and gone after it.  Without a snapshot the mount
    effect fetches cities and routes. *)
Theorem snapshot_shadows_remote
    (snapshot : PricingConfig) (w : World)
    (citiesResponse : Response (option (list City)))
    (routesResponse : Response (option (list Route))) :
  let saved := world (updatePricing snapshot w) in
  (let reloaded := world (mount citiesResponse routesResponse (reload saved)) in
   pricing reloaded = snapshot /\ requests reloaded = []) /\
  (forall cityName data,
     let added := world (addCity cityName (Success data) saved) in
     let reloaded := world (mount citiesResponse routesResponse (reload added)) in
     cities (pricing added) = cities snapshot ++ [data] /\
     pricing reloaded = snapshot /\
     requests reloaded = []) /\
  (forall cs rs,
     citiesResponse = Success cs -> routesResponse = Success rs ->
     let fresh := world (mount citiesResponse routesResponse (created None)) in
     cities (pricing fresh) = Admin.or_empty cs /\
     routes (pricing fresh) = Admin.or_empty rs /\
     mumbaiLocal (pricing fresh) = mumbaiLocal defaultPricing /\
     requests fresh = [Admin.SelectCities; Admin.SelectRoutes]).
Proof.
  destruct w as [p sp rq ts]. cbn. repeat split; intros; subst; reflexivity.
Qed.

Lemma snapshot_shadows_remote_witness :
  cities (pricing (world (mount (Success (Some [Admin.pune])) (Success None)
                            (created None)))) = [Admin.pune] /\
  routes (pricing (world (mount (Success (Some [Admin.pune])) (Success None)
                            (created None)))) = [] /\
  mumbaiLocal (pricing (world (mount (Success (Some [Admin.pune])) (Success None)
                                 (created None)))) = mumbaiLocal defaultPricing /\
  requests (world (mount (Success (Some [Admin.pune])) (Success None)
                     (created None)))
    = [Admin.SelectCities; Admin.SelectRoutes].
Proof.
  exact (proj2 (proj2 (snapshot_shadows_remote defaultPricing (created None)
                         (Success (Some [Admin.pune])) (Success None)))
           (Some [Admin.pune]) None eq_refl eq_refl).
Defined.

End EarlierExtras.

(** ** The location handlers *)

Module LocationExtras.
Import Control Geo Locations.
Local Open Scope R_scope.

(** X26. Editing an address without coordinates only changes its text: the
    coordinates, the distance and the duration stay those of the earlier
    selection.  Selecting a place while the other end is still unknown
    stores its coordinates and leaves distance and duration alone. *)
Theorem text_edit_keeps_route
    (value : string) (o : FetchOutcome) (s : LocationState) :
  (let s' := handlePickupChange value None o s in
   pickup s' = value /\ drop s' = drop s /\
   pickupCoords s' = pickupCoords s /\ dropCoords s' = dropCoords s /\
   route s' = route s) /\
  (let s' := handleDropChange value None o s in
   drop s' = value /\ pickup s' = pickup s /\
   pickupCoords s' = pickupCoords s /\ dropCoords s' = dropCoords s /\
   route s' = route s) /\
  (forall c, dropCoords s = None ->
     route (handlePickupChange value (Some c) o s) = route s /\
     pickupCoords (handlePickupChange value (Some c) o s) = Some c) /\
  (forall c, pickupCoords s = None ->
     route (handleDropChange value (Some c) o s) = route s /\
     dropCoords (handleDropChange value (Some c) o s) = Some c).
Proof.
  repeat split; intros; cbn; try reflexivity;
    match goal with H : _ = None |- _ => now rewrite H end.
Qed.

Lemma text_edit_keeps_route_witness :
  route (handlePickupChange "Dadar" (Some GeoStatements.equator_near)
           GeoStatements.unreachable blank) = route blank /\
  pickupCoords (handlePickupChange "Dadar" (Some GeoStatements.equator_near)
                  GeoStatements.unreachable blank)
    = Some GeoStatements.equator_near.
Proof.
  exact (proj1 (proj2 (proj2 (text_edit_keeps_route "Dadar"
                  GeoStatements.unreachable blank)))
           GeoStatements.equator_near eq_refl).
Defined.

(** X27. Once both places are selected the route is computed from the two
    selected coordinates, pickup first, whichever was selected last; so
    selecting pickup then drop and selecting drop then pickup end in the
    same state when the distance request settles the same way, and when the
    service fails the distance is the fallback distance between the two. *)
Theorem selection_order_irrelevant
    (pv dv : string) (p d : Coordinates) (o1 o2 : FetchOutcome)
    (s : LocationState) :
  pickupCoords s = None -> dropCoords s = None ->
  let pickup_first :=
    handleDropChange dv (Some d) o2 (handlePickupChange pv (Some p) o1 s) in
  let drop_first :=
    handlePickupChange pv (Some p) o2 (handleDropChange dv (Some d) o1 s) in
  pickup_first = drop_first /\
  route pickup_first = world (calculateRouteDetails p d o2 (route s)) /\
  (service_failed o2 ->
     distance (route pickup_first) = calculateStraightLineDistance p d).
Proof.
  intros Hp Hd pickup_first drop_first. subst pickup_first drop_first.
  unfold handleDropChange, handlePickupChange.
  cbn [pickup drop pickupCoords dropCoords route]. rewrite Hp, Hd.
  repeat split.
  intros Hf.
  destruct (GeoProofs.calculateRouteDetails_fallback p d o2 (route s) Hf)
    as [e ->].
  reflexivity.
Qed.

Lemma selection_order_irrelevant_witness :
  distance (route (handleDropChange "Bandra" (Some GeoStatements.equator_near)
                     GeoStatements.unreachable
                     (handlePickupChange "Dadar" (Some GeoStatements.equator_origin)
                        GeoStatements.unreachable blank)))
  = calculateStraightLineDistance GeoStatements.equator_origin
      GeoStatements.equator_near.
Proof.
  exact (proj2 (proj2 (selection_order_irrelevant "Dadar" "Bandra"
                  GeoStatements.equator_origin GeoStatements.equator_near
                  GeoStatements.unreachable GeoStatements.unreachable blank
                  eq_refl eq_refl))
           I).
Defined.

End LocationExtras.

(** ** The fare estimator over binary64 *)

Module Fare64Proofs.
Import Js64 Booking64.

Lemma compare_cont_Eq_antisym (p q : positive) :
  Pos.compare_cont Eq q p = CompOpp (Pos.compare_cont Eq p q).
Proof. apply Pos.compare_antisym. Qed.

(** Comparing the other way round gives the opposite answer. *)
Lemma SFcompare_antisym (x y : number) :
  SFcompare y x = option_map CompOpp (SFcompare x y).
Proof.
  destruct x as [sx | sx | | sx mx ex], y as [sy | sy | | sy my ey];
    try (destruct sx); try (destruct sy); try reflexivity;
    cbn [SFcompare option_map]; rewrite (Z.compare_antisym ex ey);
    destruct (ex ?= ey)%Z; cbn [CompOpp]; try reflexivity;
    rewrite (compare_cont_Eq_antisym mx my);
    destruct (Pos.compare_cont Eq mx my); reflexivity.
Qed.

Lemma SFcompare_Eq_finite s m e (t : number) :
  SFcompare (S754_finite s m e) t = Some Eq -> t = S754_finite s m e.
Proof.
  destruct t as [st | st | | st mt et]; cbn [SFcompare]; intros H.
  - destruct s; discriminate H.
  - destruct st; discriminate H.
  - discriminate H.
  - destruct s, st; try discriminate H;
      destruct (e ?= et)%Z eqn:Ez; try discriminate H;
      destruct (Pos.compare_cont Eq m mt) eqn:Ec; try discriminate H;
      apply Z.compare_eq in Ez; apply Pos.compare_eq in Ec; now subst.
Qed.

(** [t < 100 ? 100 : t] is [Math.max(100, t)]. *)
Lemma clamp64_is_max (t : number) :
  (if lt t (of_Z 100) then of_Z 100 else t) = Math_max (of_Z 100) t.
Proof.
  unfold lt, SFltb, Math_max.
  rewrite (SFcompare_antisym (of_Z 100) t).
  destruct (SFcompare (of_Z 100) t) as [[ | | ]|] eqn:E; cbn [option_map CompOpp].
  - apply SFcompare_Eq_finite in E. subst t. reflexivity.
  - reflexivity.
  - reflexivity.
  - destruct t as [s | s | | s m e]; try reflexivity; try discriminate E;
      destruct s; discriminate E.
Qed.

Lemma positive_not_zero (d : number) : lt zero d = true -> strict_eq d zero = false.
Proof.
  unfold lt, strict_eq, SFltb, SFeqb. rewrite (SFcompare_antisym zero d).
  destruct (SFcompare zero d) as [[ | | ]|]; cbn; congruence.
Qed.

(** The fare for a known rate: what every branch of [getFare] returns. *)
Lemma getFare64_ready (st : FormState) (rates : LocalFare) :
  is_zero (distance st) = false ->
  mumbaiLocalRates st = Some rates ->
  getFare st =
    let rate := rate_read rates (Booking.tripType (booking st))
                  (Booking.carType (booking st)) in
    let totalFare := Math_round (mul (ToNumber (distance st)) rate) in
    Some {| ratePerKm := rate;
            total := Math_max (of_Z 100) totalFare;
            isMinimumFare := lt totalFare (of_Z 100) |}.
Proof.
  intros Hz Hr. unfold getFare, rate_read. rewrite Hz, Hr. cbv zeta.
  now rewrite clamp64_is_max.
Qed.

Lemma getFare64_None_iff (st : FormState) :
  getFare st = None <->
  is_zero (distance st) = true \/ mumbaiLocalRates st = None.
Proof.
  unfold getFare. destruct (is_zero (distance st)); [intuition |].
  destruct (mumbaiLocalRates st); split; intros H;
    try discriminate; try reflexivity; auto.
  destruct H; discriminate.
Qed.

(** C1. For a positive distance and loaded rates, [getFare] picks the rate of
    the 2x2 matrix (trip type x car type) and returns
    total = max(100, round(distance * rate)) with
    isMinimumFare = (round(distance * rate) < 100), the product and the
    rounding being those of binary64 Numbers.  With the scenario rates,
    40 km in a 4-seater costs 600 (normal) and 720 (airport), and 2 km at
    rate 15 costs the minimum fare 100.  Where the binary64 product is not
    the exact one: 10.35 km at rate 10 costs 104, 16.9 km at rate 15 costs
    253, and 9.95 km at rate 10 costs 100 without the minimum-fare flag. *)
Theorem getFare_matrix_and_floor :
  (forall (st : FormState) (rates : LocalFare) (d : number)
          (t : Booking.TripType) (c : Booking.CarType),
      distance st = Number d ->
      lt zero d = true ->
      mumbaiLocalRates st = Some rates ->
      Booking.tripType (booking st) = Booking.tripType_value t ->
      Booking.carType (booking st) = Booking.carType_value c ->
      getFare st =
        Some {| ratePerKm := spec_selectedRate rates t c;
                total := Math_max (of_Z 100)
                           (Math_round (mul d (spec_selectedRate rates t c)));
                isMinimumFare :=
                  lt (Math_round (mul d (spec_selectedRate rates t c)))
                     (of_Z 100) |})
  /\ getFare (scenario_form "normal" "4-seater" (Number (of_Z 40)))
       = Some {| ratePerKm := of_Z 15; total := of_Z 600;
                 isMinimumFare := false |}
  /\ getFare (scenario_form "airport" "4-seater" (Number (of_Z 40)))
       = Some {| ratePerKm := of_Z 18; total := of_Z 720;
                 isMinimumFare := false |}
  /\ getFare (scenario_form "normal" "4-seater" (Number (of_Z 2)))
       = Some {| ratePerKm := of_Z 15; total := of_Z 100;
                 isMinimumFare := true |}
  /\ getFare (round_form "4-seater" (decimal 1035 2))
       = Some {| ratePerKm := of_Z 10; total := of_Z 104;
                 isMinimumFare := false |}
  /\ getFare (round_form "6-seater" (decimal 169 1))
       = Some {| ratePerKm := of_Z 15; total := of_Z 253;
                 isMinimumFare := false |}
  /\ getFare (round_form "4-seater" (decimal 995 2))
       = Some {| ratePerKm := of_Z 10; total := of_Z 100;
                 isMinimumFare := false |}.
Proof.
  split; [| repeat split; vm_compute; reflexivity].
  intros st rates d t c Hd Hpos Hr Ht Hc.
  assert (Hz : is_zero (distance st) = false)
    by (rewrite Hd; cbn [is_zero]; now apply positive_not_zero).
  rewrite (getFare64_ready st rates Hz Hr), Ht, Hc, Hd. cbv zeta.
  destruct t, c; reflexivity.
Qed.

Lemma getFare_matrix_and_floor_witness :
  getFare (scenario_form "airport" "6-seater" (Number (decimal 35 1)))
  = Some {| ratePerKm := of_Z 22; total := of_Z 100; isMinimumFare := true |}.
Proof.
  exact (proj1 getFare_matrix_and_floor
           (scenario_form "airport" "6-seater" (Number (decimal 35 1)))
           scenario_rates (decimal 35 1) Booking.Airport Booking.SixSeater
           eq_refl eq_refl eq_refl eq_refl eq_refl).
Defined.

Lemma getFare64_inv (st : FormState) (fare : FareDetails) :
  getFare st = Some fare ->
  exists rates,
    mumbaiLocalRates st = Some rates /\
    is_zero (distance st) = false /\
    let product :=
      Math_round (mul (ToNumber (distance st))
                    (rate_read rates (Booking.tripType (booking st))
                       (Booking.carType (booking st)))) in
    fare = {| ratePerKm := rate_read rates (Booking.tripType (booking st))
                             (Booking.carType (booking st));
              total := if lt product (of_Z 100) then of_Z 100 else product;
              isMinimumFare := lt product (of_Z 100) |}.
Proof.
  unfold getFare, rate_read. destruct (is_zero (distance st)); [discriminate |].
  destruct (mumbaiLocalRates st) as [rates|]; [| discriminate].
  intros H. injection H as <-. eauto.
Qed.

(** A Number that is not below [c] and is not NaN is at least [c]. *)
Lemma not_lt_le (t c : number) :
  t <> NaN -> c <> NaN -> lt t c = false -> le c t = true.
Proof.
  unfold lt, le, SFltb, SFleb. intros Ht Hc.
  rewrite (SFcompare_antisym t c).
  destruct (SFcompare t c) as [[ | | ]|] eqn:E; cbn; try congruence.
  unfold NaN in *.
  destruct t as [s | s | | s m e], c as [s' | s' | | s' m' e'];
    try congruence; cbn [SFcompare] in E; try discriminate E;
    destruct s; try discriminate E; destruct s'; discriminate E.
Qed.

Lemma clamp_not_below (p : number) :
  lt (if lt p (of_Z 100) then of_Z 100 else p) (of_Z 100) = false.
Proof. destruct (lt p (of_Z 100)) eqn:E; [reflexivity | exact E]. Qed.

Lemma or_zero_cases (t : number) :
  lt t (of_Z 100) = false ->
  or_zero t = zero \/ le (of_Z 100) (or_zero t) = true.
Proof.
  intros H. destruct t as [s | s | | s m e]; cbn [or_zero]; auto;
    right;
    (apply not_lt_le;
     [unfold NaN; discriminate | vm_compute; discriminate | exact H]).
Qed.

Lemma estimated_total64_cases (st : FormState) :
  estimated_total st = zero \/ le (of_Z 100) (estimated_total st) = true.
Proof.
  unfold estimated_total. destruct (getFare st) as [fare|] eqn:E; [| now left].
  apply getFare64_inv in E as (rates & _ & _ & ->). cbn [total].
  apply or_zero_cases, clamp_not_below.
Qed.

(** X1. Minimum fare. A fare breakdown never totals less than 100: its total
    is 100 when the rounded binary64 product of distance and rate is below
    100 (and only then is it flagged as minimum fare), and is that rounded
    product otherwise, which is NaN exactly when the product is.  The price
    that reaches the booking row and the message, [total || 0], is
    therefore 0 or at least 100. *)
Theorem getFare_never_below_minimum (st : FormState) (fare : FareDetails) :
  getFare st = Some fare ->
  let product :=
    Math_round (mul (ToNumber (distance st)) (ratePerKm fare)) in
  lt (total fare) (of_Z 100) = false /\
  isMinimumFare fare = lt product (of_Z 100) /\
  (isMinimumFare fare = true -> total fare = of_Z 100) /\
  (isMinimumFare fare = false -> total fare = product) /\
  (total fare = NaN <-> product = NaN) /\
  (estimated_total st = zero \/ le (of_Z 100) (estimated_total st) = true).
Proof.
  intros Hg product. pose proof (estimated_total64_cases st) as Hest.
  apply getFare64_inv in Hg as (rates & _ & _ & ->).
  subst product. cbn [total isMinimumFare ratePerKm].
  set (p := Math_round _).
  split; [apply clamp_not_below |].
  split; [reflexivity |].
  destruct (lt p (of_Z 100)) eqn:E.
  - split; [reflexivity | split; [discriminate | split; [| exact Hest]]].
    split.
    + intros H. vm_compute in H. discriminate H.
    + intros Hp. rewrite Hp in E. discriminate E.
  - split; [discriminate | split; [reflexivity | split; [| exact Hest]]].
    reflexivity.
Qed.

Lemma getFare_never_below_minimum_witness :
  lt (of_Z 100) (of_Z 100) = false /\
  false = lt (Math_round (mul (decimal 995 2) (of_Z 10))) (of_Z 100) /\
  (false = true -> of_Z 100 = of_Z 100) /\
  (false = false -> of_Z 100 = Math_round (mul (decimal 995 2) (of_Z 10))) /\
  (of_Z 100 = NaN <-> Math_round (mul (decimal 995 2) (of_Z 10)) = NaN) /\
  (estimated_total (round_form "4-seater" (decimal 995 2)) = zero \/
   le (of_Z 100) (estimated_total (round_form "4-seater" (decimal 995 2))) = true).
Proof.
  exact (getFare_never_below_minimum
           (round_form "4-seater" (decimal 995 2))
           {| ratePerKm := of_Z 10; total := of_Z 100; isMinimumFare := false |}
           eq_refl).
Defined.

(** X8. The submit button is enabled exactly when no calculation is running
    and [getFare] has a result, and the fare breakdown is only rendered
    while the button is enabled.  While it is enabled the price a
    submission carries is 0 or at least 100; it is 0 when the distance cell
    holds NaN or [undefined], which does not disable the button. *)
Theorem submit_enabled_iff_fare_ready (st : FormState) (isCalculating : bool) :
  (submitDisabled st isCalculating = false <->
     isCalculating = false /\ exists fare, getFare st = Some fare) /\
  (breakdownShown st isCalculating = true ->
     submitDisabled st isCalculating = false) /\
  (submitDisabled st isCalculating = false ->
     estimated_total st = zero \/ le (of_Z 100) (estimated_total st) = true) /\
  (ToNumber (distance st) = NaN -> mumbaiLocalRates st <> None ->
     submitDisabled st false = false /\ estimated_total st = zero).
Proof.
  assert (Hiff : submitDisabled st isCalculating = false <->
            isCalculating = false /\ exists fare, getFare st = Some fare).
  { unfold submitDisabled. rewrite !orb_false_iff. split.
    - intros [[Hz Hc] Hr]. split; [exact Hc |].
      destruct (mumbaiLocalRates st) as [rates|] eqn:Er; [| discriminate].
      rewrite (getFare64_ready st rates Hz Er). cbv zeta. eauto.
    - intros [Hc [fare Hf]].
      apply getFare64_inv in Hf as (rates & -> & Hz & _). auto. }
  split; [exact Hiff | split; [| split]].
  - unfold breakdownShown. rewrite !andb_true_iff.
    intros [[_ Hc] Hf]. apply negb_true_iff in Hc.
    apply Hiff. split; [exact Hc |].
    destruct (getFare st) as [fare|]; [eauto | discriminate].
  - intros _. apply estimated_total64_cases.
  - intros Hnan Hrates.
    assert (Hz : is_zero (distance st) = false).
    { destruct (distance st) as [|x]; [reflexivity |].
      cbn in Hnan. subst x. reflexivity. }
    destruct (mumbaiLocalRates st) as [rates|] eqn:Er; [| contradiction].
    split.
    + unfold submitDisabled. now rewrite Hz, Er.
    + unfold estimated_total. rewrite (getFare64_ready st rates Hz Er).
      cbv zeta. cbn [total]. rewrite Hnan. reflexivity.
Qed.

Lemma submit_enabled_iff_fare_ready_witness :
  submitDisabled (scenario_form "normal" "4-seater" Undefined) false = false /\
  estimated_total (scenario_form "normal" "4-seater" Undefined) = zero.
Proof.
  refine (proj2 (proj2 (proj2 (submit_enabled_iff_fare_ready
            (scenario_form "normal" "4-seater" Undefined) false)))
            eq_refl _).
  discriminate.
Defined.

End Fare64Proofs.

(** ** Distance estimation over binary64 *)

Module Geo64Proofs.
Import Control Js64 Geo64.

(** A finite Number minus itself is +0. *)
Lemma sub_diag (x : number) : finite x = true -> sub x x = zero.
Proof.
  destruct x as [s | s | | s m e]; try discriminate; intros _.
  - destruct s; reflexivity.
  - unfold sub, SFsub. cbv zeta. rewrite Z.sub_diag. reflexivity.
Qed.

(** A finite Number times +0, times +0 again, added to +0, is +0. *)
Lemma add_zero_mul_zero (q : number) :
  finite q = true -> add zero (mul (mul q zero) zero) = zero.
Proof.
  destruct q as [s | s | | s m e]; try discriminate; intros _;
    destruct s; reflexivity.
Qed.

Lemma angle_of_zero :
  div (div (mul zero Math_PI) (of_Z 180)) (of_Z 2) = zero.
Proof. vm_compute. reflexivity. Qed.

Lemma distance_of_zero_angle :
  div (Math_round (mul (mul (of_Z 6371) (mul (of_Z 2) zero)) (of_Z 100)))
      (of_Z 100) = zero
  /\ Math_round (mul zero (of_Z 3)) = zero.
Proof. split; vm_compute; reflexivity. Qed.

Lemma haversine64_identical (rt : Runtime) (p : Coordinates) :
  finite (lat p) = true -> finite (lng p) = true ->
  Math_sin rt zero = zero ->
  finite (mul (Math_cos rt (div (mul (lat p) Math_PI) (of_Z 180)))
              (Math_cos rt (div (mul (lat p) Math_PI) (of_Z 180)))) = true ->
  haversine_a rt p p = zero.
Proof.
  intros Hlat Hlng Hsin Hcos. unfold haversine_a. cbv zeta.
  rewrite (sub_diag _ Hlat), (sub_diag _ Hlng), angle_of_zero, Hsin.
  change (mul zero zero) with zero.
  now apply add_zero_mul_zero.
Qed.

Lemma distance64_identical (rt : Runtime) (p : Coordinates) :
  finite (lat p) = true -> finite (lng p) = true ->
  Math_sin rt zero = zero ->
  Math_atan2 rt zero (of_Z 1) = zero ->
  finite (mul (Math_cos rt (div (mul (lat p) Math_PI) (of_Z 180)))
              (Math_cos rt (div (mul (lat p) Math_PI) (of_Z 180)))) = true ->
  calculateStraightLineDistance rt p p = zero.
Proof.
  intros Hlat Hlng Hsin Hatan Hcos.
  unfold calculateStraightLineDistance, central_angle. cbv zeta.
  rewrite (haversine64_identical rt p Hlat Hlng Hsin Hcos).
  change (Math_sqrt zero) with zero.
  replace (Math_sqrt (sub (of_Z 1) zero)) with (of_Z 1)
    by (vm_compute; reflexivity).
  rewrite Hatan. apply distance_of_zero_angle.
Qed.

(** [calculateRouteDetails] when the service delivered nothing. *)
Lemma calculateRouteDetails64_fallback rt pickup drop o s :
  service_failed o ->
  exists error,
    calculateRouteDetails rt pickup drop o s
    = (Returned tt,
       {| distance := Number (calculateStraightLineDistance rt pickup drop);
          duration :=
            Number (Math_round
                      (mul (calculateStraightLineDistance rt pickup drop)
                           (of_Z 3)));
          isCalculating := false;
          console := console s ++
            [("Error calculating route with Google Distance Matrix:", error)] |}).
Proof.
  intros Hf. destruct s as [d0 t0 c0 l0].
  destruct o as [error | ok status [result | error]]; simpl in Hf.
  - exists error. reflexivity.
  - destruct Hf as [-> | []]. eexists. reflexivity.
  - destruct ok; eexists; reflexivity.
Qed.

(** As claimed, C2 fails on the duration: for two points of the equator
    0.005 degrees apart the fallback distance is 0.56, three times which is
    1.6800000000000002 in binary64, while the duration stored is
    [Math.round] of that, 2. *)
Lemma fallback_duration_is_triple_counterexample :
  ~ fallback_duration_is_triple series_runtime equator_origin equator_near
      unreachable idle.
Proof.
  intros H. specialize (H I). vm_compute in H. discriminate H.
Qed.

(** C2, amended. When the distance service fails, answers with a
    non-success status or with an unreadable body, [calculateRouteDetails]
    does not throw and stores as distance the haversine value
    [Math.round(6371 * c * 100) / 100], [c] being the central angle computed
    with the engine's sine, cosine and arctangent, and as duration
    [Math.round(distance * 3)]: three times the distance rounded to whole
    minutes.  For identical coordinates with finite latitude and longitude
    both are 0, given that the engine's sine of 0 is 0, its [atan2(0, 1)]
    is 0 and the square of its cosine of the latitude is finite. *)
Theorem fallback_distance_and_duration
    (rt : Runtime) (pickup drop : Coordinates) (o : FetchOutcome)
    (s : RouteState) :
  service_failed o ->
  let out := calculateRouteDetails rt pickup drop o s in
  let straight := calculateStraightLineDistance rt pickup drop in
  result out = Returned tt /\
  distance (world out) = Number straight /\
  straight
    = div (Math_round (mul (mul (of_Z 6371) (central_angle rt pickup drop))
                           (of_Z 100)))
          (of_Z 100) /\
  duration (world out) = Number (Math_round (mul straight (of_Z 3))) /\
  isCalculating (world out) = false /\
  (pickup = drop ->
   finite (lat pickup) = true -> finite (lng pickup) = true ->
   Math_sin rt zero = zero ->
   Math_atan2 rt zero (of_Z 1) = zero ->
   finite (mul (Math_cos rt (div (mul (lat pickup) Math_PI) (of_Z 180)))
               (Math_cos rt (div (mul (lat pickup) Math_PI) (of_Z 180))))
     = true ->
   distance (world out) = Number zero /\ duration (world out) = Number zero).
Proof.
  intros Hf out straight. subst out straight.
  destruct (calculateRouteDetails64_fallback rt pickup drop o s Hf) as [error ->].
  unfold result, world. cbn [fst snd distance duration isCalculating].
  split; [reflexivity |]. split; [reflexivity |]. split; [reflexivity |].
  split; [reflexivity |]. split; [reflexivity |].
  intros <- Hlat Hlng Hsin Hatan Hcos.
  rewrite (distance64_identical rt pickup Hlat Hlng Hsin Hatan Hcos).
  split; [reflexivity |].
  now rewrite (proj2 distance_of_zero_angle).
Qed.

Lemma fallback_distance_and_duration_witness :
  distance (world (calculateRouteDetails series_runtime dadar dadar
                     unreachable idle)) = Number zero
  /\ duration (world (calculateRouteDetails series_runtime dadar dadar
                        unreachable idle)) = Number zero.
Proof.
  refine (proj2 (proj2 (proj2 (proj2 (proj2
            (fallback_distance_and_duration series_runtime dadar dadar
               unreachable idle I)))))
            eq_refl _ _ _ _ _);
    vm_compute; reflexivity.
Defined.

End Geo64Proofs.
